(** * 7DTD-ModletCombiner: the merge engine, embedded and verified

    The Python sources under [7dtd_modlet_combiner/] are translated function
    by function.  A Python [str] is a Rocq [string]; every character stands
    for one code point below 256, so that [ord c < 128] separates plain ASCII
    from the rest.  Python dictionaries whose iteration order is observable
    are association lists in insertion order.  The SQLite tables are lists of
    rows in rowid order. *)

From Stdlib Require Import List String Ascii Bool Arith ZArith NArith QArith Lia.
Import ListNotations.

Set Warnings "-register-all".
Close Scope Q_scope.
Local Open Scope list_scope.
Local Open Scope string_scope.

(** ** Python string primitives used by the sources *)

Module Py.

Definition ord (c : ascii) : N := N_of_ascii c.

(** [all(ord(c) < 128 for c in data)] *)
Fixpoint all_ascii (s : string) : bool :=
  match s with
  | EmptyString => true
  | String c r => (ord c <? 128)%N && all_ascii r
  end.

(** [s.startswith(p)] *)
Fixpoint startswith (s p : string) : bool :=
  match p, s with
  | EmptyString, _ => true
  | String a p', String b s' => Ascii.eqb a b && startswith s' p'
  | String _ _, EmptyString => false
  end.

(** [sub in s] *)
Fixpoint contains (sub s : string) : bool :=
  startswith s sub ||
  match s with
  | EmptyString => false
  | String _ r => contains sub r
  end.

(** [s.endswith(p)] *)
Fixpoint endswith (s p : string) : bool :=
  String.eqb s p ||
  match s with
  | EmptyString => false
  | String _ r => endswith r p
  end.

(** The code points below 256 for which [str.isspace] holds. *)
Definition is_space (c : ascii) : bool :=
  let n := ord c in
  ((9 <=? n) && (n <=? 13) || (28 <=? n) && (n <=? 32)
   || (n =? 133) || (n =? 160))%N.

Fixpoint lstrip (s : string) : string :=
  match s with
  | EmptyString => EmptyString
  | String c r => if is_space c then lstrip r else s
  end.

Fixpoint rstrip (s : string) : string :=
  match s with
  | EmptyString => EmptyString
  | String c r =>
      let r' := rstrip r in
      if is_space c && String.eqb r' EmptyString then EmptyString
      else String c r'
  end.

Definition strip (s : string) : string := rstrip (lstrip s).

(** [str.lower] on code points below 256. *)
Definition lower_char (c : ascii) : ascii :=
  let n := ord c in
  if ((65 <=? n) && (n <=? 90)
      || (192 <=? n) && (n <=? 222) && negb (n =? 215))%N
  then ascii_of_N (n + 32) else c.

Fixpoint lower (s : string) : string :=
  match s with
  | EmptyString => EmptyString
  | String c r => String (lower_char c) (lower r)
  end.

(** [sep.join(parts)] *)
Fixpoint join (sep : string) (parts : list string) : string :=
  match parts with
  | [] => EmptyString
  | [p] => p
  | p :: rest => p ++ sep ++ join sep rest
  end.

(** [s.split(c)] for a one-character separator; never returns the empty
    list. *)
Fixpoint split_on (c : ascii) (s : string) : list string :=
  match s with
  | EmptyString => [EmptyString]
  | String a r =>
      if Ascii.eqb a c then EmptyString :: split_on c r
      else match split_on c r with
           | [] => [String a EmptyString]
           | w :: ws => String a w :: ws
           end
  end.

(** [s[:n]] for a non-negative [n]. *)
Fixpoint take (n : nat) (s : string) : string :=
  match n, s with
  | O, _ => EmptyString
  | S _, EmptyString => EmptyString
  | S k, String c r => String c (take k r)
  end.

(** [s.replace(old, new)] for a non-empty [old]; [skip] counts the characters
    of a match that are still to be dropped. *)
Fixpoint replace_from (old new : string) (skip : nat) (s : string) : string :=
  match s with
  | EmptyString => EmptyString
  | String c r =>
      match skip with
      | S k => replace_from old new k r
      | O =>
          if startswith s old
          then new ++ replace_from old new (String.length old - 1) r
          else String c (replace_from old new 0 r)
      end
  end.

Definition replace (s old new : string) : string := replace_from old new 0 s.

(** [os.path.join(a, b)] on POSIX. *)
Definition path_join (a b : string) : string :=
  if startswith b "/" then b
  else if String.eqb a "" || endswith a "/" then a ++ b
  else a ++ "/" ++ b.

(** [s.encode('utf-8')], as the list of byte values. *)
Fixpoint encode_utf8 (s : string) : list Z :=
  match s with
  | EmptyString => []
  | String c r =>
      let n := Z.of_N (ord c) in
      if (n <? 128)%Z then n :: encode_utf8 r
      else Z.lor 192 (Z.shiftr n 6) :: Z.lor 128 (Z.land n 63) :: encode_utf8 r
  end.

(** Exceptions the modelled code can meet, and the outcome of a call that
    may raise. *)
Inductive exn : Set :=
| BinasciiError | UnicodeDecodeError | UnicodeEncodeError
| ZeroDivisionError | UnboundLocalError | XMLParseError.

Inductive result (A : Type) : Type :=
| Ok (a : A)
| Raise (e : exn).
Arguments Ok {A} a.
Arguments Raise {A} e.

Definition bind {A B} (r : result A) (k : A -> result B) : result B :=
  match r with
  | Ok a => k a
  | Raise e => Raise e
  end.

Fixpoint mapM {A B} (f : A -> result B) (l : list A) : result (list B) :=
  match l with
  | [] => Ok []
  | a :: r => bind (f a) (fun b => bind (mapM f r) (fun bs => Ok (b :: bs)))
  end.

(** [data.encode('ascii')] *)
Definition encode_ascii (s : string) : result (list Z) :=
  if all_ascii s then Ok (encode_utf8 s) else Raise UnicodeEncodeError.

End Py.

Declare Scope py_scope.
Notation "x <- c1 ;; c2" := (Py.bind c1 (fun x => c2))
  (at level 61, c1 at next level, right associativity) : py_scope.

(** ** hashlib.md5 (RFC 1321) on byte lists, 32-bit words as [Z] *)

Module MD5.

Local Open Scope Z_scope.

Definition mask32 : Z := 4294967295.
Definition add32 (a b : Z) : Z := Z.land (a + b) mask32.
Definition not32 (a : Z) : Z := Z.lxor a mask32.
Definition rotl32 (x n : Z) : Z :=
  Z.lor (Z.land (Z.shiftl x n) mask32) (Z.shiftr x (32 - n)).

Definition shifts : list Z :=
  [7;12;17;22;7;12;17;22;7;12;17;22;7;12;17;22;
   5;9;14;20;5;9;14;20;5;9;14;20;5;9;14;20;
   4;11;16;23;4;11;16;23;4;11;16;23;4;11;16;23;
   6;10;15;21;6;10;15;21;6;10;15;21;6;10;15;21].

Definition sines : list Z :=
  [0xd76aa478;0xe8c7b756;0x242070db;0xc1bdceee;0xf57c0faf;0x4787c62a;0xa8304613;0xfd469501;
   0x698098d8;0x8b44f7af;0xffff5bb1;0x895cd7be;0x6b901122;0xfd987193;0xa679438e;0x49b40821;
   0xf61e2562;0xc040b340;0x265e5a51;0xe9b6c7aa;0xd62f105d;0x02441453;0xd8a1e681;0xe7d3fbc8;
   0x21e1cde6;0xc33707d6;0xf4d50d87;0x455a14ed;0xa9e3e905;0xfcefa3f8;0x676f02d9;0x8d2a4c8a;
   0xfffa3942;0x8771f681;0x6d9d6122;0xfde5380c;0xa4beea44;0x4bdecfa9;0xf6bb4b60;0xbebfbc70;
   0x289b7ec6;0xeaa127fa;0xd4ef3085;0x04881d05;0xd9d4d039;0xe6db99e5;0x1fa27cf8;0xc4ac5665;
   0xf4292244;0x432aff97;0xab9423a7;0xfc93a039;0x655b59c3;0x8f0ccc92;0xffeff47d;0x85845dd1;
   0x6fa87e4f;0xfe2ce6e0;0xa3014314;0x4e0811a1;0xf7537e82;0xbd3af235;0x2ad7d2bb;0xeb86d391].

Record regs := Regs { rA : Z; rB : Z; rC : Z; rD : Z }.

Definition init : regs := Regs 0x67452301 0xefcdab89 0x98badcfe 0x10325476.

(** One of the 64 operations of a block; [m] is the block as 16 words. *)
Definition round (m : list Z) (r : regs) (i : nat) : regs :=
  let '(Regs a b c d) := r in
  let iz := Z.of_nat i in
  let '(f, g) :=
    if iz <? 16 then (Z.lor (Z.land b c) (Z.land (not32 b) d), iz)
    else if iz <? 32 then (Z.lor (Z.land d b) (Z.land (not32 d) c), (5 * iz + 1) mod 16)
    else if iz <? 48 then (Z.lxor (Z.lxor b c) d, (3 * iz + 5) mod 16)
    else (Z.lxor c (Z.lor b (not32 d)), (7 * iz) mod 16) in
  let sum := add32 (add32 (add32 a f) (nth i sines 0)) (nth (Z.to_nat g) m 0) in
  Regs d (add32 b (rotl32 sum (nth i shifts 0))) b c.

Definition block (r : regs) (m : list Z) : regs :=
  let r' := fold_left (round m) (seq 0 64) r in
  Regs (add32 (rA r) (rA r')) (add32 (rB r) (rB r'))
       (add32 (rC r) (rC r')) (add32 (rD r) (rD r')).

(** Little-endian words of a byte list whose length is a multiple of 4. *)
Fixpoint words (bs : list Z) : list Z :=
  match bs with
  | b0 :: b1 :: b2 :: b3 :: rest =>
      (b0 + 256 * b1 + 65536 * b2 + 16777216 * b3) :: words rest
  | _ => []
  end.

Fixpoint chunks (fuel : nat) (ws : list Z) : list (list Z) :=
  match fuel, ws with
  | O, _ => []
  | _, [] => []
  | S k, _ => firstn 16 ws :: chunks k (skipn 16 ws)
  end.

Definition le_bytes (n : nat) (v : Z) : list Z :=
  map (fun i => Z.land (Z.shiftr v (8 * Z.of_nat i)) 255) (seq 0 n).

Definition pad (msg : list Z) : list Z :=
  let len := Z.of_nat (List.length msg) in
  let zeros := Z.to_nat ((55 - len) mod 64) in
  (msg ++ [128] ++ repeat 0 zeros
   ++ le_bytes 8 (Z.land (8 * len) 0xFFFFFFFFFFFFFFFF))%list.

Definition digest (msg : list Z) : list Z :=
  let ws := words (pad msg) in
  let r := fold_left block (chunks (List.length ws) ws) init in
  (le_bytes 4 (rA r) ++ le_bytes 4 (rB r) ++ le_bytes 4 (rC r)
   ++ le_bytes 4 (rD r))%list.

Definition hex_digit (v : Z) : ascii :=
  if v <? 10 then ascii_of_N (Z.to_N (48 + v)) else ascii_of_N (Z.to_N (87 + v)).

Fixpoint hex (bs : list Z) : string :=
  match bs with
  | [] => EmptyString
  | b :: rest => String (hex_digit (Z.shiftr b 4)) (String (hex_digit (Z.land b 15)) (hex rest))
  end.

(** [hashlib.md5(data).hexdigest()] *)
Definition hexdigest (msg : list Z) : string := hex (digest msg).

End MD5.


(** ** configuration.py *)

Module Configuration.

Definition EXPECTED_HEADER : list string :=
  ["Key"; "File"; "Type"; "UsedInMainMenu"; "NoTranslate"; "english";
   "Context / Alternate Text"; "german"; "latam"; "french"; "italian";
   "japanese"; "koreana"; "polish"; "brazilian"; "russian"; "turkish";
   "schinese"; "tchinese"; "spanish"].

(** [EXPECTED_HEADER[7:]] *)
Definition TARGET_LANGUAGES : list string := skipn 7 EXPECTED_HEADER.

Definition QUOTED_COLUMNS : list string :=
  (["english"; "Context / Alternate Text"] ++ TARGET_LANGUAGES)%list.

End Configuration.

(** ** The [base64] module and the UTF-8 decoder, as an interface

    [b64encode bs] is [base64.b64encode(bs).decode('ascii')]; [b64decode]
    answers [None] where CPython raises [binascii.Error], [utf8_decode]
    answers [None] where [bytes.decode('utf-8')] raises
    [UnicodeDecodeError]. *)

Class Base64 : Type := {
  b64encode : list Z -> string;
  b64decode : list Z -> option (list Z);
  utf8_decode : list Z -> option string
}.

(** ** db_processor.py

    The SQL statements are taken to succeed: the handlers for
    [sqlite3.Error] and the log lines of this module have no counterpart
    here.  A SELECT without ORDER BY returns the rows in rowid order. *)

Module DBProcessor.

Import Py.
Local Open Scope py_scope.

Record modlet_row : Type := ModletRow {
  m_unique_id : string; m_name : string; m_description : string;
  m_author : string; m_version : string; m_website : string }.

Record xml_row : Type := XmlRow {
  x_id : N; x_modlet_name : string; x_unique_id : string;
  x_full_path : string; x_short_path : string; x_outer_tag : string;
  x_content : string }.

(** The 24 text columns of [localization_data], in the order of the INSERT
    statement; a row keeps its values in that order. *)
Definition loc_columns : list string :=
  ["modlet_name"; "unique_id"; "full_path"; "short_path"; "file";
   "used_in_main_menu"; "no_translate"; "type"; "key"; "english"; "german";
   "latam"; "french"; "italian"; "japanese"; "koreana"; "polish";
   "brazilian"; "russian"; "turkish"; "schinese"; "tchinese"; "spanish";
   "value"].

Record loc_row : Type := LocRow { l_id : N; l_values : list string }.

(** The connection together with [self.encoding].  [xml_seq] and [loc_seq]
    are the AUTOINCREMENT counters of the two tables. *)
Record db : Type := Db {
  encoding : string;
  modlets : list modlet_row;
  xml_data : list xml_row;
  xml_seq : N;
  localization_data : list loc_row;
  loc_seq : N }.

(** The state after [initialize(wipe=True)]. *)
Definition empty (enc : string) : db := Db enc [] [] 0 [] 0.

Section WithBase64.
Context `{Base64}.

Definition _encode_data (enc : string) (data : string) : string :=
  if String.eqb enc "base64" then b64encode (encode_utf8 data) else data.

Definition _decode_data (enc : string) (data : string) : result string :=
  if String.eqb data "" then Ok ""
  else if String.eqb enc "base64" then
    bytes <- encode_ascii data ;;
    match match b64decode bytes with
          | Some raw => utf8_decode raw
          | None => None
          end with
    | Some text => Ok text
    | None =>
        (* except (binascii.Error, UnicodeDecodeError) *)
        if all_ascii data then Ok data
        else Ok (if (50 <? String.length data)%nat
                 then take 50 data ++ "..." else data)
    end
  else Ok data.

(** [f"{name}_{version}"] *)
Definition id_string (name version : string) : string :=
  name ++ "_" ++ version.

Definition generate_unique_id (name version : string) : string :=
  MD5.hexdigest (encode_utf8 (id_string name version)).

(** INSERT OR REPLACE on [modlets], whose primary key is [unique_id]: a row
    with the same key is deleted before the new one is added. *)
Definition store_modlet_info (d : db)
    (name description author version website : string) : db * string :=
  let uid := generate_unique_id name version in
  let kept := filter (fun r => negb (String.eqb (m_unique_id r) uid)) (modlets d) in
  (Db (encoding d)
      (kept ++ [ModletRow uid name description author version website])%list
      (xml_data d) (xml_seq d) (localization_data d) (loc_seq d),
   uid).

(** INSERT OR REPLACE on [xml_data].  The only uniqueness constraint of the
    table is the AUTOINCREMENT primary key [id], which the statement does not
    supply: the row gets the next id, and REPLACE deletes the rows that
    already carry that id. *)
Definition store_xml_data (d : db)
    (modlet_name unique_id full_path short_path outer_tag content : string) : db :=
  let encoded_content := _encode_data (encoding d) content in
  let id := (xml_seq d + 1)%N in
  let kept := filter (fun r => negb (x_id r =? id)%N) (xml_data d) in
  Db (encoding d) (modlets d)
     (kept ++ [XmlRow id modlet_name unique_id full_path short_path outer_tag
                      encoded_content])%list
     id (localization_data d) (loc_seq d).

(** INSERT OR REPLACE on [localization_data]; [items] are the 24 arguments
    after [self], every one of them encoded. *)
Definition store_localization_data (d : db) (items : list string) : db :=
  let encoded_data := map (_encode_data (encoding d)) items in
  let id := (loc_seq d + 1)%N in
  let kept := filter (fun r => negb (l_id r =? id)%N) (localization_data d) in
  Db (encoding d) (modlets d) (xml_data d) (xml_seq d)
     (kept ++ [LocRow id encoded_data])%list id.

(** The nested dictionary [short_path -> outer_tag -> [content]], both levels
    in insertion order. *)
Definition tag_dict : Type := list (string * list string).
Definition xml_dict : Type := list (string * tag_dict).

Fixpoint append_at {V : Type} (k : string) (upd : option V -> V)
    (l : list (string * V)) : list (string * V) :=
  match l with
  | [] => [(k, upd None)]
  | (k', v) :: r =>
      if String.eqb k' k then (k', upd (Some v)) :: r
      else (k', v) :: append_at k upd r
  end.

(** The three statements of the loop body of [get_xml_data]. *)
Definition add_content (acc : xml_dict) (short_path outer_tag content : string)
  : xml_dict :=
  append_at short_path
    (fun old =>
       append_at outer_tag
         (fun l => match l with Some cs => (cs ++ [content])%list | None => [content] end)
         (match old with Some tags => tags | None => [] end))
    acc.

Fixpoint fetch_xml (enc : string) (rows : list xml_row) (acc : xml_dict)
  : result xml_dict :=
  match rows with
  | [] => Ok acc
  | r :: rest =>
      content <- _decode_data enc (x_content r) ;;
      fetch_xml enc rest (add_content acc (x_short_path r) (x_outer_tag r) content)
  end.

Definition truthy (s : string) : bool := negb (String.eqb s "").

Definition get_xml_data (d : db) (full_path short_path outer_tag : string)
  : result xml_dict :=
  let selected :=
    if truthy full_path && truthy short_path && truthy outer_tag then
      filter (fun r => String.eqb (x_full_path r) full_path
                       && String.eqb (x_short_path r) short_path
                       && String.eqb (x_outer_tag r) outer_tag) (xml_data d)
    else xml_data d in
  fetch_xml (encoding d) selected [].

(** [dict(zip(columns, decoded_row))] for every selected row. *)
Definition entry : Type := list (string * string).

Definition get_localization_data (d : db) (full_path short_path : string)
  : result (list entry) :=
  let selected :=
    if truthy full_path && truthy short_path then
      filter (fun r => String.eqb (nth 2 (l_values r) "") full_path
                       && String.eqb (nth 3 (l_values r) "") short_path)
             (localization_data d)
    else localization_data d in
  mapM (fun r =>
          decoded_row <- mapM (_decode_data (encoding d)) (l_values r) ;;
          Ok (combine loc_columns decoded_row))
       selected.

(** [get_xml_metadata(...)['modlet_name']]: the stored [content] column is
    compared with the content handed in. *)
Definition get_xml_metadata_name (d : db) (short_path outer_tag content : string)
  : result string :=
  match find (fun r => String.eqb (x_short_path r) short_path
                       && String.eqb (x_outer_tag r) outer_tag
                       && String.eqb (x_content r) content) (xml_data d) with
  | Some r => _decode_data (encoding d) (x_modlet_name r)
  | None => Ok "Unknown"
  end.

(** [get_modlet_info]: the first row with the identifier, its five text
    columns decoded in the order of the dictionary literal; [None] stands
    for the empty dictionary. *)
Definition get_modlet_info (d : db) (modlet_id : string)
  : result (option modlet_row) :=
  match find (fun r => String.eqb (m_unique_id r) modlet_id) (modlets d) with
  | Some r =>
      name <- _decode_data (encoding d) (m_name r) ;;
      description <- _decode_data (encoding d) (m_description r) ;;
      author <- _decode_data (encoding d) (m_author r) ;;
      version <- _decode_data (encoding d) (m_version r) ;;
      website <- _decode_data (encoding d) (m_website r) ;;
      Ok (Some (ModletRow (m_unique_id r) name description author version
                          website))
  | None => Ok None
  end.

(** [get_all_modlet_info]: name, version and author of every modlet. *)
Definition get_all_modlet_info (d : db)
  : result (list (string * string * string)) :=
  mapM (fun r =>
          name <- _decode_data (encoding d) (m_name r) ;;
          version <- _decode_data (encoding d) (m_version r) ;;
          author <- _decode_data (encoding d) (m_author r) ;;
          Ok (name, version, author))
       (modlets d).

End WithBase64.

End DBProcessor.

(** ** xml.etree.ElementTree: the element tree and its serializer

    An element carries its tag, its attributes in document order, the text
    before its first child, its children and the text that follows its end
    tag.  [tostring] follows [_serialize_xml] for trees without namespaces,
    comments or processing instructions, which is what the default parser
    builds from a namespace-free document. *)

Module ET.

Inductive Element : Type :=
| Elem (tag : string) (attrib : list (string * string)) (text : string)
       (children : list Element) (tail : string).

Definition tag (e : Element) : string := let '(Elem t _ _ _ _) := e in t.
Definition attrib (e : Element) : list (string * string) :=
  let '(Elem _ a _ _ _) := e in a.
Definition text (e : Element) : string := let '(Elem _ _ x _ _) := e in x.
Definition children (e : Element) : list Element :=
  let '(Elem _ _ _ c _) := e in c.
Definition tail (e : Element) : string := let '(Elem _ _ _ _ x) := e in x.

Definition chr (n : N) : string := String (ascii_of_N n) EmptyString.

(** [_escape_cdata] *)
Fixpoint _escape_cdata (s : string) : string :=
  match s with
  | EmptyString => EmptyString
  | String c r =>
      (if Ascii.eqb c "&" then "&amp;"
       else if Ascii.eqb c "<" then "&lt;"
       else if Ascii.eqb c ">" then "&gt;"
       else String c EmptyString) ++ _escape_cdata r
  end.

(** [_escape_attrib] *)
Fixpoint _escape_attrib (s : string) : string :=
  match s with
  | EmptyString => EmptyString
  | String c r =>
      (if Ascii.eqb c "&" then "&amp;"
       else if Ascii.eqb c "<" then "&lt;"
       else if Ascii.eqb c ">" then "&gt;"
       else if (Py.ord c =? 34)%N then "&quot;"
       else if (Py.ord c =? 13)%N then "&#13;"
       else if (Py.ord c =? 10)%N then "&#10;"
       else if (Py.ord c =? 9)%N then "&#09;"
       else String c EmptyString) ++ _escape_attrib r
  end.

Definition attrib_text (kv : string * string) : string :=
  " " ++ fst kv ++ "=" ++ chr 34 ++ _escape_attrib (snd kv) ++ chr 34.

(** The start of an element's serialization: the tag behind its angle
    bracket, then every attribute. *)
Definition open_tag (t : string) (attrs : list (string * string)) : string :=
  "<" ++ t ++ String.concat "" (map attrib_text attrs).

(** [ET.tostring(elem, encoding='unicode', method='xml')] *)
Fixpoint tostring (e : Element) : string :=
  match e with
  | Elem t attrs txt kids tl =>
      open_tag t attrs
      ++ (if negb (String.eqb txt "") || negb (Nat.eqb (List.length kids) 0)
          then ">" ++ _escape_cdata txt
                   ++ String.concat "" (map tostring kids)
                   ++ "</" ++ t ++ ">"
          else " />")
      ++ _escape_cdata tl
  end.

(** [elem.find(t)] for a plain tag [t]: the first child with that tag. *)
Definition find (t : string) (e : Element) : option Element :=
  List.find (fun child => String.eqb (tag child) t) (children e).

(** [elem.get(key)] *)
Definition get (key : string) (e : Element) : option string :=
  match List.find (fun kv => String.eqb (fst kv) key) (attrib e) with
  | Some kv => Some (snd kv)
  | None => None
  end.

(** [elem.extend(other)]: the children of [other] go behind those of
    [elem]. *)
Definition extend (e other : Element) : Element :=
  Elem (tag e) (attrib e) (text e) (children e ++ children other)%list (tail e).

End ET.

(** [ET.fromstring]; [None] where it raises [ParseError]. *)
Class ElementTreeLib : Type := {
  fromstring : string -> option ET.Element
}.

(** ** parser_xml.py *)

Module XMLParser.

Import Py.

Inductive log_event : Type :=
| ErrorParsing (file_path : string).

(** Lines 53-58: strip leading whitespace, synthesize the declaration. *)
Definition prepare (content : string) : string :=
  let content := lstrip content in
  if startswith content "<?xml" then content
  else "<?xml version=" ++ ET.chr 34 ++ "1.0" ++ ET.chr 34
       ++ " encoding=" ++ ET.chr 34 ++ "UTF-8" ++ ET.chr 34 ++ "?>"
       ++ ET.chr 10 ++ content.

(** [full_path.split('/')[-1]] *)
Definition _get_short_path (full_path : string) : string :=
  List.last (split_on "/" full_path) "".

(** Line 65: the text handed to the store for one file. *)
Definition xml_content (root : ET.Element) : string :=
  join (ET.chr 10) (map (fun child => strip (ET.tostring child)) (ET.children root)).

Section WithLibraries.
Context `{Base64} `{ElementTreeLib}.

(** [parse(file_path, modlet_name, unique_id, content)], with the content
    the caller has read.  A [ParseError] is logged and the file is left
    out. *)
Definition parse (d : DBProcessor.db) (log : list log_event)
    (file_path modlet_name unique_id content : string)
  : DBProcessor.db * list log_event :=
  match fromstring (prepare content) with
  | Some root =>
      let outer_tag := ET.tag root in
      let short_path := _get_short_path file_path in
      (DBProcessor.store_xml_data d modlet_name unique_id file_path short_path
         outer_tag (xml_content root), log)
  | None => (d, (log ++ [ErrorParsing file_path])%list)
  end.

End WithLibraries.

Fixpoint count_changes (original stored : string) : nat :=
  match original, stored with
  | String a r, String b r' =>
      (if Ascii.eqb a b then 0 else 1) + count_changes r r'
  | _, _ => 0
  end.

Definition abs_diff (a b : nat) : nat := (a - b) + (b - a).

(** Lines 130-134, the body of the [try]. *)
Definition difference_body (original stored : string) : result Q :=
  if String.eqb original stored then Ok 0%Q
  else
    let changes := count_changes original stored
                   + abs_diff (String.length original) (String.length stored) in
    let longest := Nat.max (String.length original) (String.length stored) in
    if Nat.eqb longest 0 then Raise ZeroDivisionError
    else Ok ((Z.of_nat changes # Pos.of_nat longest) * 100)%Q.

(** [except Exception: return 100] *)
Definition _calculate_difference_percentage (original stored : string) : Q :=
  match difference_body original stored with
  | Ok q => q
  | Raise _ => 100%Q
  end.

(** One round of the loop of [_merge_xml_content] on the children of the
    existing root: the first child tagged like [element] is extended with
    the children of [element]; without such a child [element] is appended. *)
Fixpoint merge_child (kids : list ET.Element) (element : ET.Element)
  : list ET.Element :=
  match kids with
  | [] => [element]
  | k :: rest =>
      if String.eqb (ET.tag k) (ET.tag element)
      then ET.extend k element :: rest
      else k :: merge_child rest element
  end.

Definition merge_roots (existing_root new_root : ET.Element) : ET.Element :=
  ET.Elem (ET.tag existing_root) (ET.attrib existing_root)
    (ET.text existing_root)
    (fold_left merge_child (ET.children new_root) (ET.children existing_root))
    (ET.tail existing_root).

(** [_merge_xml_content]: whatever is raised gives the existing text back. *)
Definition _merge_xml_content `{ElementTreeLib}
    (existing_content new_content : string) : string :=
  match fromstring existing_content, fromstring new_content with
  | Some existing_root, Some new_root =>
      ET.tostring (merge_roots existing_root new_root)
  | _, _ => existing_content
  end.

(** [extract_outer_tags] *)
Definition extract_outer_tags (root : ET.Element) : list (string * string) :=
  map (fun child => (ET.tag child, ET.tostring child)) (ET.children root).

(** [_extract_inner_content] *)
Definition _extract_inner_content (root : ET.Element) : string :=
  String.concat "" (map ET.tostring (ET.children root)).

End XMLParser.

(** [csv.reader(StringIO(content))] with the comma delimiter and the double
    quote as quote character, read to the end. *)
Class CsvLib : Type := {
  csv_reader : string -> list (list string)
}.

(** ** parser_localization.py *)

Module LocalizationParser.

Import Py.

Inductive log_event : Type :=
| SkipEmpty (line_number : nat)
| SkipComment (line_number : nat)
| InsufficientColumns (line_number : nat) (row : list string)
| Finished (processed : nat).

(** ['/'.join(full_path.split('/')[-2:])] *)
Definition _get_short_path (full_path : string) : string :=
  let parts := split_on "/" full_path in
  join "/" (skipn (List.length parts - 2) parts).

(** The 24 arguments of the call at lines 68-72, built from [row[:20]]. *)
Definition store_args (file_path modlet_name unique_id short_path : string)
    (row : list string) : list string :=
  let r := firstn 20 row in
  let key := nth 0 r "" in
  let file := nth 1 r "" in
  let type := nth 2 r "" in
  let used_in_main_menu := nth 3 r "" in
  let no_translate := nth 4 r "" in
  let english := nth 5 r "" in
  let other_languages := skipn 6 r in
  ([modlet_name; unique_id; file_path; short_path; file; used_in_main_menu;
    no_translate; type; key; english] ++ other_languages)%list.

Section WithLibraries.
Context `{Base64} `{CsvLib}.

(** The body of the [for] loop, for the row at [line_number]. *)
Definition step (file_path modlet_name unique_id short_path : string)
    (st : DBProcessor.db * list log_event) (line_number : nat)
    (row : list string) : DBProcessor.db * list log_event :=
  let '(d, log) := st in
  match row with
  | [] => (d, (log ++ [SkipEmpty line_number])%list)
  | first :: _ =>
      if startswith first "#" then (d, (log ++ [SkipComment line_number])%list)
      else if (List.length row <? 20)%nat then
        (d, (log ++ [InsufficientColumns line_number row])%list)
      else
        (DBProcessor.store_localization_data d
           (store_args file_path modlet_name unique_id short_path row), log)
  end.

(** [for line_number, row in enumerate(csv_reader, n)] *)
Fixpoint loop (file_path modlet_name unique_id short_path : string)
    (st : DBProcessor.db * list log_event) (line_number : nat)
    (rows : list (list string)) : DBProcessor.db * list log_event :=
  match rows with
  | [] => st
  | row :: rest =>
      loop file_path modlet_name unique_id short_path
        (step file_path modlet_name unique_id short_path st line_number row)
        (S line_number) rest
  end.

(** The parse of the rows the reader yields; the header row is dropped
    unread.  The closing [debug] reads [line_number], which is unbound when
    the loop body never ran. *)
Definition parse_rows (d : DBProcessor.db) (log : list log_event)
    (file_path modlet_name unique_id : string) (rows : list (list string))
  : DBProcessor.db * list log_event * result unit :=
  let short_path := _get_short_path file_path in
  let data := tl rows in
  let '(d', log') :=
    loop file_path modlet_name unique_id short_path (d, log) 2 data in
  match data with
  | [] => (d', log', Raise UnboundLocalError)
  | _ => (d', (log' ++ [Finished (List.length data)])%list, Ok tt)
  end.

Definition parse (d : DBProcessor.db) (log : list log_event)
    (file_path modlet_name unique_id content : string)
  : DBProcessor.db * list log_event * result unit :=
  parse_rows d log file_path modlet_name unique_id (csv_reader content).

End WithLibraries.

(** [calculate_difference]; the division raises when both lengths are 0. *)
Definition calculate_difference (original stored : string) : result Q :=
  if String.eqb original stored then Ok 0%Q
  else
    let changes :=
      XMLParser.count_changes original stored
      + XMLParser.abs_diff (String.length original) (String.length stored) in
    let longest := Nat.max (String.length original) (String.length stored) in
    if Nat.eqb longest 0 then Raise ZeroDivisionError
    else Ok ((Z.of_nat changes # Pos.of_nat longest) * 100)%Q.

(** [line.split(',', 1)] for a line that holds a comma: the text before
    the first comma and the text behind it. *)
Fixpoint partition_comma (line : string) : string * string :=
  match line with
  | EmptyString => (EmptyString, EmptyString)
  | String c r =>
      if Ascii.eqb c "," then (EmptyString, r)
      else let '(key, value) := partition_comma r in (String c key, value)
  end.

(** The body of the inner loop of [merge_localization_data];
    [merged_data[k] = v] keeps the place of a key that is already there. *)
Definition merge_line (merged_data : list (string * string)) (line : string)
  : list (string * string) :=
  if contains "," line then
    let '(key, value) := partition_comma line in
    DBProcessor.append_at (strip key) (fun _ => strip value) merged_data
  else merged_data.

Definition merged_dict (localization_data : list string)
  : list (string * string) :=
  fold_left (fun merged_data data =>
               fold_left merge_line (split_on (ascii_of_N 10) data) merged_data)
            localization_data [].

(** [merge_localization_data] *)
Definition merge_localization_data (localization_data : list string) : string :=
  join (String (ascii_of_N 10) EmptyString)
       (map (fun kv => fst kv ++ "," ++ snd kv) (merged_dict localization_data)).

End LocalizationParser.

(** ** The source tree on disk, and [os.walk] over it *)

Module FS.

Import Py.

Inductive node : Type :=
| File (name content : string)
| Dir (name : string) (entries : list node).

Definition file_names (entries : list node) : list string :=
  flat_map (fun e => match e with File n _ => [n] | Dir _ _ => [] end) entries.

(** What [os.walk] yields below a directory entry of [parent]: the pair
    [(root, files)] of every directory, top down. *)
Fixpoint walk_node (parent : string) (e : node) : list (string * list string) :=
  match e with
  | File _ _ => []
  | Dir name entries =>
      let root := path_join parent name in
      (root, file_names entries) :: flat_map (walk_node root) entries
  end.

(** [os.walk(directory)] for the directory at path [directory] that holds
    [entries]. *)
Definition walk (directory : string) (entries : list node)
  : list (string * list string) :=
  (directory, file_names entries) :: flat_map (walk_node directory) entries.

Fixpoint files_node (parent : string) (e : node) : list (string * string) :=
  match e with
  | File name content => [(path_join parent name, content)]
  | Dir name entries => flat_map (files_node (path_join parent name)) entries
  end.

(** [open(path).read()], [None] when there is no such file. *)
Definition read (directory : string) (entries : list node) (path : string)
  : option string :=
  match find (fun pc => String.eqb (fst pc) path)
             (flat_map (files_node directory) entries) with
  | Some pc => Some (snd pc)
  | None => None
  end.

End FS.

(** ** file_locator.py *)

Module FileLocator.

Import Py.

Record state : Type := State {
  xml_files : list string;
  localization_files : list string;
  total_char_count : nat }.

Definition init : state := State [] [] 0.

(** The body of [for file in files] for one [(root, files)] of the walk. *)
Fixpoint visit_files (file_type root : string) (files : list string)
    (st : state) (found_files : list string) : state * list string :=
  match files with
  | [] => (st, found_files)
  | file :: rest =>
      if String.eqb file_type ".xml" && endswith file ".xml" then
        let full_path := path_join root file in
        visit_files file_type root rest
          (State (xml_files st ++ [full_path]) (localization_files st)
                 (total_char_count st))
          (found_files ++ [full_path])
      else if String.eqb file_type "Localization.txt"
              && String.eqb (lower file) "localization.txt" then
        let full_path := path_join root file in
        visit_files file_type root rest
          (State (xml_files st) (localization_files st ++ [full_path])
                 (total_char_count st))
          (found_files ++ [full_path])
      else visit_files file_type root rest st found_files
  end%list.

(** [exclude and any(ex in root for ex in exclude)] *)
Definition excluded (exclude : option (list string)) (root : string) : bool :=
  match exclude with
  | Some exs => existsb (fun ex => contains ex root) exs
  | None => false
  end.

Fixpoint visit_walk (file_type : string) (exclude : option (list string))
    (walked : list (string * list string)) (st : state)
    (found_files : list string) : state * list string :=
  match walked with
  | [] => (st, found_files)
  | (root, files) :: rest =>
      if excluded exclude root then
        visit_walk file_type exclude rest st found_files
      else
        let '(st', found') := visit_files file_type root files st found_files in
        visit_walk file_type exclude rest st' found'
  end.

(** [locate_files(file_type, path=path, exclude=exclude)] for a [path] that
    is given; [entries] is the content of the directory at [path]. *)
Definition locate_files (st : state) (file_type : string)
    (path : string) (entries : list FS.node) (exclude : option (list string))
  : state * list string :=
  visit_walk file_type exclude (FS.walk path entries) st [].

Section WithLibraries.
Context `{Base64} `{ElementTreeLib} `{CsvLib}.

Record world : Type := World {
  locator : state;
  store : DBProcessor.db;
  xml_log : list XMLParser.log_event;
  loc_log : list LocalizationParser.log_event }.

(** [_process_xml_file]; a file that cannot be read is logged and skipped. *)
Definition _process_xml_file (read : string -> option string) (w : world)
    (file_path modlet_name unique_id : string) : world :=
  match read file_path with
  | Some content =>
      let '(d, log) :=
        XMLParser.parse (store w) (xml_log w) file_path modlet_name unique_id
          content in
      World (State (xml_files (locator w)) (localization_files (locator w))
                   (total_char_count (locator w) + String.length content))
            d log (loc_log w)
  | None => w
  end.

(** [_process_localization_file]; whatever the parser raises is caught. *)
Definition _process_localization_file (read : string -> option string)
    (w : world) (file_path modlet_name unique_id : string) : world :=
  match read file_path with
  | Some content =>
      let '(d, log, _) :=
        LocalizationParser.parse (store w) (loc_log w) file_path modlet_name
          unique_id content in
      World (State (xml_files (locator w)) (localization_files (locator w))
                   (total_char_count (locator w) + String.length content))
            d (xml_log w) log
  | None => w
  end.

Definition process_files (read : string -> option string) (w : world)
    (modlet_name unique_id path : string) : world :=
  let xmls := filter (fun f => startswith f path) (xml_files (locator w)) in
  let locs := filter (fun f => startswith f path) (localization_files (locator w)) in
  let w1 := fold_left (fun w f => _process_xml_file read w f modlet_name unique_id)
                      xmls w in
  fold_left (fun w f => _process_localization_file read w f modlet_name unique_id)
            locs w1.

End WithLibraries.

End FileLocator.

(** ** modlet_finder.py *)

Module ModletFinder.

Import Py.

Section WithLibraries.
Context `{Base64} `{ElementTreeLib} `{CsvLib}.

(** [_process_modlet_files(root, modlet_info)] for the modlet directory at
    [root] holding [entries]. *)
Definition _process_modlet_files (w : FileLocator.world)
    (root : string) (entries : list FS.node) (name unique_id : string)
  : FileLocator.world :=
  let read := FS.read root entries in
  let '(loc1, xml_found) :=
    FileLocator.locate_files (FileLocator.locator w) ".xml" root entries
      (Some ["ModInfo.xml"]) in
  let w1 := FileLocator.World loc1 (FileLocator.store w) (FileLocator.xml_log w)
                              (FileLocator.loc_log w) in
  let w2 := fold_left (fun w f => FileLocator.process_files read w name unique_id f)
                      xml_found w1 in
  let '(loc3, loc_found) :=
    FileLocator.locate_files (FileLocator.locator w2) "Localization.txt" root
      entries None in
  let w3 := FileLocator.World loc3 (FileLocator.store w2) (FileLocator.xml_log w2)
                              (FileLocator.loc_log w2) in
  fold_left (fun w f => FileLocator.process_files read w name unique_id f)
            loc_found w3.

End WithLibraries.

(** Lines 104-107 of [_parse_modinfo]. *)
Definition unique_id (name version : string) : string :=
  MD5.hexdigest (encode_utf8 (name ++ "_" ++ version)).

(** What [_parse_modinfo] reads for one field: the [value] attribute of the
    first child with the tag, which is [None] when the child has no such
    attribute, and the empty text when there is no such child. *)
Definition value_of (root : ET.Element) (t : string) : option string :=
  match ET.find t root with
  | Some child => ET.get "value" child
  | None => Some EmptyString
  end.

(** A value inside an f-string. *)
Definition fstr (v : option string) : string :=
  match v with
  | Some s => s
  | None => "None"
  end.

(** [v if v is not None else ''] *)
Definition or_empty (v : option string) : string :=
  match v with
  | Some s => s
  | None => EmptyString
  end.

Record modlet_info : Type := ModletInfo {
  mi_name : string; mi_description : string; mi_author : string;
  mi_version : string; mi_website : string; mi_unique_id : string }.

(** Lines 97-109 of [_parse_modinfo], from the root of the parsed
    descriptor: the identifier is computed before the [None] values are
    replaced. *)
Definition modinfo_of_root (root : ET.Element) : modlet_info :=
  let name := value_of root "Name" in
  let version := value_of root "Version" in
  ModletInfo (or_empty name)
    (or_empty (value_of root "Description"))
    (or_empty (value_of root "Author"))
    (or_empty version)
    (or_empty (value_of root "Website"))
    (unique_id (fstr name) (fstr version)).

(** [_parse_modinfo], given what [ET.parse] made of the file: [None] where
    it raised, and then the empty dictionary is returned. *)
Definition _parse_modinfo (parsed : option ET.Element) : option modlet_info :=
  match parsed with
  | Some root => Some (modinfo_of_root root)
  | None => None
  end.

End ModletFinder.

(** [xml.dom.minidom.parseString(doc).toprettyxml(indent)]; [None] where
    either call raises. *)
Class MiniDomLib : Type := {
  toprettyxml : string -> string -> option string
}.

(** ** xml_writer.py

    Sizes are natural numbers.  The percentage is an exact rational where
    Python computes a binary64 value. *)

Module XMLWriter.

Import Py.

Record state : Type := State {
  total_size : nat;
  original_total_size : nat;
  written_files : list (string * nat);
  file_char_counts : list (string * nat) }.

(** [XMLWriter()] *)
Definition init : state := State 0 0 [] [].

Inductive log_event : Type :=
| WithinTolerance (percentage_difference : Q)
| SizeWarning (percentage_difference : Q).

(** [d[k] = v] on an insertion-ordered dictionary. *)
Fixpoint dict_set {V : Type} (k : string) (v : V) (l : list (string * V))
  : list (string * V) :=
  match l with
  | [] => [(k, v)]
  | (k', v') :: r =>
      if String.eqb k' k then (k', v) :: r else (k', v') :: dict_set k v r
  end.

Fixpoint dict_get {V : Type} (k : string) (l : list (string * V)) : option V :=
  match l with
  | [] => None
  | (k', v) :: r => if String.eqb k' k then Some v else dict_get k r
  end.

(** [_update_file_size]; [file_size] is what [os.path.getsize] answers. *)
Definition _update_file_size (st : state) (file_path : string)
    (file_size content_size : nat) : state :=
  State (total_size st + file_size) (original_total_size st + content_size)
        (dict_set file_path file_size (written_files st)) (file_char_counts st).

Definition _update_char_count (st : state) (file_path content : string) : state :=
  let char_count := String.length content in
  State (total_size st) (original_total_size st) (written_files st)
        (match dict_get file_path (file_char_counts st) with
         | Some n => dict_set file_path (n + char_count) (file_char_counts st)
         | None => dict_set file_path char_count (file_char_counts st)
         end).

(** [sum(self.written_files.values())] *)
Definition total_written_size (st : state) : nat :=
  list_sum (map snd (written_files st)).

Definition abs_diff (a b : nat) : nat := (a - b) + (b - a).

Definition check_total_filesize (st : state) : result (bool * log_event) :=
  let difference := abs_diff (total_written_size st) (original_total_size st) in
  if Nat.eqb (original_total_size st) 0 then Raise ZeroDivisionError
  else
    let percentage_difference :=
      ((Z.of_nat difference # Pos.of_nat (original_total_size st)) * 100)%Q in
    if Qle_bool percentage_difference 5
    then Ok (true, WithinTolerance percentage_difference)
    else Ok (false, SizeWarning percentage_difference).

Section WithLibraries.
Context `{MiniDomLib}.

Definition xml_decl : string :=
  "<?xml version=" ++ ET.chr 34 ++ "1.0" ++ ET.chr 34 ++ " ?>".

(** [content[5:-6]] *)
Definition slice_5_m6 (content : string) : string :=
  take (String.length content - 11) (String.substring 5 (String.length content - 5) content).

Definition pretty_print (content : string) : string :=
  let content := strip (replace content xml_decl "") in
  let content :=
    if startswith content "<xml>" && endswith content "</xml>"
    then strip (slice_5_m6 content) else content in
  match toprettyxml "  " ("<root>" ++ content ++ "</root>") with
  | Some pretty_xml =>
      let pretty_xml := replace pretty_xml (xml_decl ++ ET.chr 10) "" in
      let pretty_xml :=
        replace (replace pretty_xml ("<root>" ++ ET.chr 10) "") "</root>" "" in
      join (ET.chr 10)
           (filter (fun line => negb (String.eqb (strip line) ""))
                   (split_on (ascii_of_N 10) pretty_xml))
  | None => content
  end.

(** [write]: the file at [file_path] receives the pretty-printed text, its
    size on disk is the length of the UTF-8 encoding. *)
Definition write (st : state) (disk : list (string * string))
    (file_path content : string) : state * list (string * string) :=
  let pretty_xml := pretty_print content in
  let disk' := dict_set file_path pretty_xml disk in
  let st1 := _update_file_size st file_path
               (List.length (encode_utf8 pretty_xml)) (String.length pretty_xml) in
  (_update_char_count st1 file_path pretty_xml, disk').

End WithLibraries.

End XMLWriter.

(** ** modlet_writer.py *)

Module ModletWriter.

Import Py.
Local Open Scope py_scope.

(** [entry.get(column.lower(), '')] *)
Definition entry_get (e : DBProcessor.entry) (column : string) : string :=
  match XMLWriter.dict_get (lower column) e with
  | Some v => v
  | None => ""
  end.

Definition in_list (x : string) (l : list string) : bool :=
  existsb (String.eqb x) l.

(** Lines 187-190: one field of an emitted row. *)
Definition field (e : DBProcessor.entry) (column : string) : string :=
  let value := entry_get e column in
  if DBProcessor.truthy value && in_list column Configuration.QUOTED_COLUMNS
  then ET.chr 34 ++ value ++ ET.chr 34 else value.

Definition line (e : DBProcessor.entry) : string :=
  join "," (map (field e) Configuration.EXPECTED_HEADER) ++ ET.chr 10.

Definition header_line : string :=
  join "," Configuration.EXPECTED_HEADER ++ ET.chr 10.


Section WithLibraries.
Context `{Base64} `{MiniDomLib}.

(** The three lines appended for one block. *)
Definition wrap_block (modlet_name tag_content : string) : list string :=
  ["<!-- Start XML_Block: " ++ modlet_name ++ " -->"; tag_content;
   "<!-- End XML_Block: " ++ modlet_name ++ " -->"].

(** The blocks of one output file in the order the two nested loops of
    lines 215-216 visit them. *)
Definition file_blocks (content : DBProcessor.tag_dict) : list (string * string) :=
  flat_map (fun tc => map (fun c => (fst tc, c)) (snd tc)) content.

Definition combined_content (d : DBProcessor.db) (short_path : string)
    (content : DBProcessor.tag_dict) : result (list string) :=
  parts <- mapM (fun tc =>
                   modlet_name <- DBProcessor.get_xml_metadata_name d short_path
                                    (fst tc) (snd tc) ;;
                   Ok (wrap_block modlet_name (snd tc)))
                (file_blocks content) ;;
  Ok (List.concat parts).

Definition full_content (combined : list string) : string :=
  "<config>" ++ ET.chr 10 ++ join " " combined ++ ET.chr 10 ++ "</config>".

Record state : Type := State {
  writer : XMLWriter.state;
  disk : list (string * string);
  file_xml_block_counts : list (string * nat) }.

Fixpoint write_each (d : DBProcessor.db) (output_path : string)
    (files : DBProcessor.xml_dict) (st : state) : result state :=
  match files with
  | [] => Ok st
  | (short_path, content) :: rest =>
      let file_path := path_join (path_join output_path "Config") short_path in
      combined <- combined_content d short_path content ;;
      let '(w, dk) :=
        XMLWriter.write (writer st) (disk st) file_path (full_content combined) in
      write_each d output_path rest
        (State w dk
           (XMLWriter.dict_set short_path (List.length (file_blocks content))
              (file_xml_block_counts st)))
  end.

(** [_write_xml_files]: whatever is raised inside is logged and raised again. *)
Definition _write_xml_files (d : DBProcessor.db) (output_path : string)
    (st : state) : result (state * (bool * XMLWriter.log_event)) :=
  xml_data <- DBProcessor.get_xml_data d "" "" "" ;;
  st' <- write_each d output_path xml_data st ;;
  verdict <- XMLWriter.check_total_filesize (writer st') ;;
  Ok (st', verdict).

Record stat : Type := Stat {
  stat_file : string;
  db_xml_block_count : nat;
  file_xml_block_count : option nat;
  file_size : nat;
  db_size : nat;
  size_difference : Z;
  size_difference_percent : Q }.

(** The rows of the table [display_statistics] prints. *)
Definition display_statistics (d : DBProcessor.db) (output_path : string)
    (st : state) : result (list stat) :=
  db_xml_data <- DBProcessor.get_xml_data d "" "" "" ;;
  Ok (flat_map
        (fun pc =>
           let '(short_path, content) := pc in
           let file_path := path_join (path_join output_path "Config") short_path in
           match XMLWriter.dict_get file_path (disk st) with
           | Some text =>
               let file_size := List.length (encode_utf8 text) in
               let db_size :=
                 list_sum (map (fun tc => String.length (String.concat "" (snd tc)))
                               content) in
               let size_difference := (Z.of_nat file_size - Z.of_nat db_size)%Z in
               [Stat short_path
                     (list_sum (map (fun tc => List.length (snd tc)) content))
                     (XMLWriter.dict_get short_path (file_xml_block_counts st))
                     file_size db_size size_difference
                     (if (0 <? db_size)%nat
                      then ((size_difference # Pos.of_nat db_size) * 100)%Q
                      else 0%Q)]
           | None => []
           end)
        db_xml_data).

End WithLibraries.

(** What a file opened for reading in text mode hands over: a carriage
    return, alone or followed by a line feed, reads as one line feed. *)
Fixpoint read_text (s : string) : string :=
  match s with
  | EmptyString => EmptyString
  | String c r =>
      if Ascii.eqb c (ascii_of_N 13) then
        String (ascii_of_N 10)
          match r with
          | String c' r' =>
              if Ascii.eqb c' (ascii_of_N 10) then read_text r' else read_text r
          | EmptyString => EmptyString
          end
      else String c (read_text r)
  end.

(** [file.readlines()]: the lines, each with its line feed. *)
Fixpoint readlines (s : string) : list string :=
  match s with
  | EmptyString => []
  | String c r =>
      if Ascii.eqb c (ascii_of_N 10) then String c EmptyString :: readlines r
      else match readlines r with
           | [] => [String c EmptyString]
           | l :: ls => String c l :: ls
           end
  end.

(** [line[2:]] *)
Definition drop2 (line : string) : string :=
  String.substring 2 (String.length line - 2) line.

(** The loop of [post_process_xml_files] over the lines of one file. *)
Fixpoint process_lines (in_config : bool) (lines : list string) : list string :=
  match lines with
  | [] => []
  | line :: rest =>
      if contains "<config>" line then line :: process_lines true rest
      else if contains "</config>" line then line :: process_lines false rest
      else if in_config then
        (if startswith line "  " then drop2 line else line)
          :: process_lines in_config rest
      else line :: process_lines in_config rest
  end.

(** What [post_process_xml_files] writes back to a file that held [text]. *)
Definition post_process_text (text : string) : string :=
  String.concat "" (process_lines false (readlines (read_text text))).

(** An element that carries its value in the [value] attribute. *)
Definition value_elem (t v : string) : ET.Element :=
  ET.Elem t [("value", v)] "" [] "".

(** The tree [_write_modinfo_xml] builds from [modlet_info], a dictionary
    with texts as values; [None] where [modlet_info['Name']] is a
    [KeyError]. *)
Definition modinfo_root (modlet_info : list (string * string))
  : option ET.Element :=
  match XMLWriter.dict_get "Name" modlet_info with
  | None => None
  | Some name =>
      Some (ET.Elem "xml" [] ""
              ([value_elem "Name" (replace name " " "_");
                value_elem "DisplayName" name;
                value_elem "Website"
                  match XMLWriter.dict_get "Website" modlet_info with
                  | Some website => website
                  | None => ""
                  end]
               ++ map (fun kv => value_elem (fst kv) (snd kv))
                      (filter (fun kv => negb (in_list (fst kv) ["Name"; "Website"]))
                              modlet_info))%list
              "")
  end.

End ModletWriter.

(** ** utilities.py *)

Module Utilities.

Import Py.




End Utilities.

(** ** A reference [Base64] instance

    [encode] is RFC 4648 with padding.  [decode] follows CPython's
    [binascii.a2b_base64] in its default, non-strict mode: characters outside
    the alphabet are skipped, a complete pad ends the input, and a quad left
    open at the end is the [binascii.Error].  [utf8] decodes the one- and
    two-byte sequences of the code points below 256, the range a [string] of
    this development can hold. *)

Module Base64Ref.

Local Open Scope Z_scope.

Definition symbol (v : Z) : ascii :=
  ascii_of_N (Z.to_N (if v <? 26 then 65 + v
                      else if v <? 52 then 71 + v
                      else if v <? 62 then v - 4
                      else if v =? 62 then 43 else 47)).

Fixpoint encode (bs : list Z) : string :=
  match bs with
  | [] => EmptyString
  | [a] =>
      String (symbol (Z.shiftr a 2))
        (String (symbol (Z.shiftl (Z.land a 3) 4)) "==")
  | [a; b] =>
      String (symbol (Z.shiftr a 2))
        (String (symbol (Z.lor (Z.shiftl (Z.land a 3) 4) (Z.shiftr b 4)))
           (String (symbol (Z.shiftl (Z.land b 15) 2)) "="))
  | a :: b :: c :: rest =>
      String (symbol (Z.shiftr a 2))
        (String (symbol (Z.lor (Z.shiftl (Z.land a 3) 4) (Z.shiftr b 4)))
           (String (symbol (Z.lor (Z.shiftl (Z.land b 15) 2) (Z.shiftr c 6)))
              (String (symbol (Z.land c 63)) (encode rest))))
  end.

Definition value (ch : Z) : option Z :=
  if (65 <=? ch) && (ch <=? 90) then Some (ch - 65)
  else if (97 <=? ch) && (ch <=? 122) then Some (ch - 71)
  else if (48 <=? ch) && (ch <=? 57) then Some (ch + 4)
  else if ch =? 43 then Some 62
  else if ch =? 47 then Some 63
  else None.

Fixpoint decode_from (bs : list Z) (quad_pos leftchar pads : Z) (out : list Z)
  : option (list Z) :=
  match bs with
  | [] => if quad_pos =? 0 then Some out else None
  | ch :: rest =>
      if ch =? 61 then
        if (2 <=? quad_pos) && (4 <=? quad_pos + (pads + 1)) then Some out
        else decode_from rest quad_pos leftchar
               (if 2 <=? quad_pos then pads + 1 else pads) out
      else
        match value ch with
        | None => decode_from rest quad_pos leftchar pads out
        | Some v =>
            if quad_pos =? 0 then decode_from rest 1 v 0 out
            else if quad_pos =? 1 then
              decode_from rest 2 (Z.land v 15) 0
                (out ++ [Z.lor (Z.shiftl leftchar 2) (Z.shiftr v 4)])%list
            else if quad_pos =? 2 then
              decode_from rest 3 (Z.land v 3) 0
                (out ++ [Z.lor (Z.shiftl leftchar 4) (Z.shiftr v 2)])%list
            else
              decode_from rest 0 0 0 (out ++ [Z.lor (Z.shiftl leftchar 6) v])%list
        end
  end.

Definition decode (bs : list Z) : option (list Z) := decode_from bs 0 0 0 [].

Fixpoint utf8 (bs : list Z) : option string :=
  match bs with
  | [] => Some EmptyString
  | b :: rest =>
      if b <? 128 then
        match utf8 rest with
        | Some s => Some (String (ascii_of_N (Z.to_N b)) s)
        | None => None
        end
      else if (194 <=? b) && (b <=? 195) then
        match rest with
        | c :: rest' =>
            if (128 <=? c) && (c <=? 191) then
              match utf8 rest' with
              | Some s =>
                  Some (String (ascii_of_N
                                  (Z.to_N (Z.lor (Z.shiftl (Z.land b 31) 6)
                                                 (Z.land c 63)))) s)
              | None => None
              end
            else None
        | [] => None
        end
      else None
  end.

#[export] Instance reference : Base64 :=
  {| b64encode := encode; b64decode := decode; utf8_decode := utf8 |}.

End Base64Ref.

(** ** Worked inputs *)

Module Examples.

Import Py.

(** A modlet name with one character outside ASCII (code point 233). *)
Definition cafe : string := "Caf" ++ String (ascii_of_N 233) EmptyString.

(** The fragment [<items><a/><b/></items>] and the tree ElementTree builds
    from it. *)
Definition items_doc : string := "<items><a/><b/></items>".

Definition items_tree : ET.Element :=
  ET.Elem "items" [] ""
    [ET.Elem "a" [] "" [] ""; ET.Elem "b" [] "" [] ""] "".

(** The descriptor of modlet Alpha and its tree. *)
Definition modinfo_doc : string :=
  "<xml><Name value='Alpha'/><Version value='1.0'/></xml>".

Definition modinfo_tree : ET.Element :=
  ET.Elem "xml" [] ""
    [ET.Elem "Name" [("value", "Alpha")] "" [] "";
     ET.Elem "Version" [("value", "1.0")] "" [] ""] "".

(** ElementTree's answers on the documents above, once [XMLParser.prepare]
    has put the declaration in front. *)
#[export] Instance element_tree : ElementTreeLib :=
  {| fromstring := fun s =>
       if String.eqb s (XMLParser.prepare items_doc) then Some items_tree
       else if String.eqb s (XMLParser.prepare modinfo_doc) then Some modinfo_tree
       else None |}.

(** No localization table is read in the examples that need a reader. *)
#[export] Instance no_csv : CsvLib := {| csv_reader := fun _ => [] |}.

(** The modlet directory [/mods/Alpha]. *)
Definition alpha_root : string := "/mods/Alpha".

Definition alpha_entries : list FS.node :=
  [FS.File "ModInfo.xml" modinfo_doc;
   FS.Dir "Config" [FS.File "items.xml" items_doc]].

Definition nl : string := ET.chr 10.
Definition quote : string := ET.chr 34.
Definition e_acute : string := String (ascii_of_N 233) EmptyString.

(** Two texts handed to [XMLWriter.write]; the second holds three
    characters outside ASCII. *)
Definition items_content : string :=
  "<config>" ++ nl ++ "<items><ironSword /><ironShield /></items>" ++ nl
  ++ "</config>".

Definition loot_content : string :=
  "<config>" ++ nl ++ "<t>" ++ e_acute ++ e_acute ++ e_acute ++ "</t>" ++ nl
  ++ "</config>".

(** What minidom returns for the two texts, wrapped in [<root>], with an
    indent of two blanks. *)
Definition items_pretty : string :=
  "<?xml version=" ++ quote ++ "1.0" ++ quote ++ " ?>" ++ nl ++ "<root>" ++ nl
  ++ "  <config>" ++ nl ++ "    " ++ nl ++ nl ++ "    <items>" ++ nl
  ++ "      <ironSword/>" ++ nl ++ "      <ironShield/>" ++ nl
  ++ "    </items>" ++ nl ++ "    " ++ nl ++ nl ++ "  </config>" ++ nl
  ++ "</root>" ++ nl.

Definition loot_pretty : string :=
  "<?xml version=" ++ quote ++ "1.0" ++ quote ++ " ?>" ++ nl ++ "<root>" ++ nl
  ++ "  <config>" ++ nl ++ "    " ++ nl ++ nl ++ "    <t>" ++ e_acute
  ++ e_acute ++ e_acute ++ "</t>" ++ nl ++ "    " ++ nl ++ nl ++ "  </config>"
  ++ nl ++ "</root>" ++ nl.

#[export] Instance minidom : MiniDomLib :=
  {| toprettyxml := fun indent doc =>
       if negb (String.eqb indent "  ") then None
       else if String.eqb doc ("<root>" ++ items_content ++ "</root>")
       then Some items_pretty
       else if String.eqb doc ("<root>" ++ loot_content ++ "</root>")
       then Some loot_pretty
       else None |}.

(** A localization data row of [n] fields, the key first. *)
Definition loc_fields (key : string) (n : nat) : list string :=
  key :: repeat "x" (n - 1).

End Examples.

(** * Vocabulary of the statements

    What the properties below talk about: the invariant of the store, the
    blocks of a path as they were recorded, and the inputs of the worked
    cases. *)

(** Every id handed out so far is at most the table's counter. *)
Definition wf (d : DBProcessor.db) : Prop :=
  Forall (fun r => (DBProcessor.x_id r <= DBProcessor.xml_seq d)%N)
         (DBProcessor.xml_data d)
  /\ Forall (fun r => (DBProcessor.l_id r <= DBProcessor.loc_seq d)%N)
            (DBProcessor.localization_data d).

(** A recorded block: logical short path, structural tag, decoded text. *)
Definition block : Type := (string * string * string)%type.
Definition b_path (b : block) : string := fst (fst b).
Definition b_tag (b : block) : string := snd (fst b).
Definition b_content (b : block) : string := snd b.

(** The rows of [xml_data] in the order they were recorded, decoded. *)
Definition recorded `{Base64} (d : DBProcessor.db) : Py.result (list block) :=
  Py.mapM (fun r =>
             Py.bind (DBProcessor._decode_data (DBProcessor.encoding d)
                        (DBProcessor.x_content r))
                     (fun content =>
                        Py.Ok (DBProcessor.x_short_path r,
                               DBProcessor.x_outer_tag r, content)))
          (DBProcessor.xml_data d).

Definition add_block (acc : DBProcessor.xml_dict) (b : block)
  : DBProcessor.xml_dict :=
  DBProcessor.add_content acc (b_path b) (b_tag b) (b_content b).

Definition group (bs : list block) : DBProcessor.xml_dict :=
  fold_left add_block bs [].

(** The distinct members of a list, in the order of their first
    appearance. *)
Definition first_seen (l : list string) : list string :=
  fold_left (fun acc x => if ModletWriter.in_list x acc then acc
                          else (acc ++ [x])%list) l [].

Definition at_path (sp : string) (b : block) : bool :=
  String.eqb (b_path b) sp.

Definition at_path_tag (sp t : string) (b : block) : bool :=
  String.eqb (b_path b) sp && String.eqb (b_tag b) t.

(** The texts recorded for a path under one tag, in recorded order. *)
Definition contents_of (sp t : string) (bs : list block) : list string :=
  map b_content (filter (at_path_tag sp t) bs).

(** The tags recorded for a path, in the order of their first block. *)
Definition tags_of (sp : string) (bs : list block) : list string :=
  first_seen (map b_tag (filter (at_path sp) bs)).

Definition layout (sp : string) (bs : list block) : DBProcessor.tag_dict :=
  map (fun t => (t, contents_of sp t bs)) (tags_of sp bs).


(** A data line: not blank, and its first field is not a comment. *)
Definition is_data_row (row : list string) : bool :=
  match row with
  | [] => false
  | first :: _ => negb (Py.startswith first "#")
  end.

(** The columns named by the claim: english, the alternate text and the
    thirteen target languages. *)
Definition designated (column : string) : bool :=
  ModletWriter.in_list column
    ["english"; "Context / Alternate Text"; "german"; "latam"; "french";
     "italian"; "japanese"; "koreana"; "polish"; "brazilian"; "russian";
     "turkish"; "schinese"; "tchinese"; "spanish"].

(** The 24 values of a localization row of modlet [modlet], file [path],
    key [key] and english text [english]. *)
Definition loc_items (modlet uid path key english : string) : list string :=
  LocalizationParser.store_args path modlet uid
    (LocalizationParser._get_short_path path)
    (key :: "" :: "" :: "" :: "" :: english :: repeat "" 14).


(** Modlet Alpha records two files named [windows.xml], with the root tags
    [windows] and [append]; modlet Beta then records its [windows.xml]. *)
Definition windows_store : DBProcessor.db :=
  let store := @DBProcessor.store_xml_data Base64Ref.reference in
  store
    (store
       (store (DBProcessor.empty "base64") "Alpha" "idA"
          "/mods/Alpha/Config/XUi/windows.xml" "windows.xml" "windows" "<a1 />")
       "Alpha" "idA" "/mods/Alpha/Config/XUi_Menu/windows.xml" "windows.xml"
       "append" "<a2 />")
    "Beta" "idB" "/mods/Beta/Config/XUi/windows.xml" "windows.xml" "windows"
    "<b1 />".



(** What [locate_files] looks for in a directory listing, by file type. *)
Definition wanted (file_type file : string) : bool :=
  String.eqb file_type ".xml" && Py.endswith file ".xml"
  || String.eqb file_type "Localization.txt"
     && String.eqb (Py.lower file) "localization.txt".

(** The files of one [(root, files)] of the walk that a search returns. *)
Definition found_in (file_type : string) (exclude : option (list string))
    (rf : string * list string) : list string :=
  if FileLocator.excluded exclude (fst rf) then []
  else map (Py.path_join (fst rf)) (filter (wanted file_type) (snd rf)).

(** A value that comes back from the store as it went in. *)
Definition round_trips `{Base64} (enc s : string) : Prop :=
  DBProcessor._decode_data enc (DBProcessor._encode_data enc s) = Py.Ok s.

(** A data row that reaches the store: a data line of 20 fields or more. *)
Definition accepted (row : list string) : bool :=
  is_data_row row && (20 <=? List.length row)%nat.

(** A field as the writer emits it in a quoted column. *)
Definition quoted (value : string) : string :=
  if DBProcessor.truthy value then ET.chr 34 ++ value ++ ET.chr 34 else value.


(** What a merge leaves of an element apart from its children. *)
Definition shape (e : ET.Element)
  : string * list (string * string) * string * string :=
  (ET.tag e, ET.attrib e, ET.text e, ET.tail e).

(** The number of elements one level below a list of elements. *)
Definition grandchildren (kids : list ET.Element) : nat :=
  list_sum (map (fun k => List.length (ET.children k)) kids).

(** The key and value a line of a localization text stands for, when it
    holds a comma. *)
Definition entry_of (line : string) : option (string * string) :=
  if Py.contains "," line then
    let '(key, value) := LocalizationParser.partition_comma line in
    Some (Py.strip key, Py.strip value)
  else None.

(** The entries of all the lines of all the texts, in reading order. *)
Definition entries_of (localization_data : list string)
  : list (string * string) :=
  flat_map (fun line => match entry_of line with
                        | Some kv => [kv]
                        | None => []
                        end)
           (flat_map (Py.split_on (ascii_of_N 10)) localization_data).

(** The value of the last entry with the key. *)
Definition last_value (k : string) (entries : list (string * string))
  : option string :=
  match find (fun kv => String.eqb (fst kv) k) (rev entries) with
  | Some kv => Some (snd kv)
  | None => None
  end.

(** A line as [post_process_xml_files] writes it back: unchanged, or
    without its two leading blanks when it names neither end of the
    [config] element. *)
Definition deindented (line written : string) : Prop :=
  written = line
  \/ (line = ("  " ++ written)%string
      /\ Py.contains "<config>" line = false
      /\ Py.contains "</config>" line = false).

(** The writer and the disk after the files were written one after the
    other. *)
Definition write_all `{MiniDomLib} (files : list (string * string))
    (st : XMLWriter.state) (disk : list (string * string))
  : XMLWriter.state * list (string * string) :=
  fold_left (fun sd f => XMLWriter.write (fst sd) (snd sd) (fst f) (snd f))
            files (st, disk).

(** The [value] attribute of the first child with the tag. *)
Definition attr_value (root : ET.Element) (t : string) : option string :=
  match ET.find t root with
  | Some child => ET.get "value" child
  | None => None
  end.



(** The writer's state after the files of the store of the three
    [windows.xml] blocks were written below [out]. *)
Definition windows_written : ModletWriter.state :=
  match @ModletWriter._write_xml_files Base64Ref.reference Examples.minidom
          windows_store "out"
          (ModletWriter.State XMLWriter.init [] []) with
  | Py.Ok (st, _) => st
  | Py.Raise _ => ModletWriter.State XMLWriter.init [] []
  end.

(** The document [pretty_print] hands to minidom for a text. *)
Definition wrapped_document (content : string) : string :=
  let content := Py.strip (Py.replace content XMLWriter.xml_decl "") in
  let content :=
    if Py.startswith content "<xml>" && Py.endswith content "</xml>"
    then Py.strip (XMLWriter.slice_5_m6 content) else content in
  ("<root>" ++ content ++ "</root>")%string.

(** minidom's answer once [pretty_print] has taken the declaration and the
    [root] wrapper out of it. *)
Definition unwrapped (pretty_xml : string) : string :=
  Py.replace
    (Py.replace (Py.replace pretty_xml (XMLWriter.xml_decl ++ ET.chr 10) "")
                ("<root>" ++ ET.chr 10) "")
    "</root>" "".

Definition not_blank (line : string) : bool :=
  negb (String.eqb (Py.strip line) "").

(** * Properties *)

(** ** The library models agree with known answers *)

Example md5_empty :
  MD5.hexdigest (Py.encode_utf8 "") = "d41d8cd98f00b204e9800998ecf8427e".
Proof. vm_compute. reflexivity. Qed.

Example md5_abc :
  MD5.hexdigest (Py.encode_utf8 "abc") = "900150983cd24fb0d6963f7d28e17f72".
Proof. vm_compute. reflexivity. Qed.

Example md5_two_blocks :
  MD5.hexdigest (Py.encode_utf8
    "12345678901234567890123456789012345678901234567890123456789012345678901234567890")
  = "57edf4a22be3c955ac49da2e2107b67a".
Proof. vm_compute. reflexivity. Qed.

Example base64_hello :
  Base64Ref.encode (Py.encode_utf8 "hello") = "aGVsbG8="
  /\ Base64Ref.decode (Py.encode_utf8 "aGVsbG8=") = Some (Py.encode_utf8 "hello")
  /\ Base64Ref.utf8 (Py.encode_utf8 Examples.cafe) = Some Examples.cafe.
Proof. vm_compute. repeat split; reflexivity. Qed.

Example base64_bad_padding :
  Base64Ref.decode (Py.encode_utf8 "Alpha") = None.
Proof. vm_compute. reflexivity. Qed.

Example strip_example :
  Py.strip (ET.chr 10 ++ "  <a />" ++ ET.chr 10 ++ " ") = "<a />".
Proof. vm_compute. reflexivity. Qed.

Example tostring_example :
  ET.tostring (ET.Elem "b" [("x", "1<2")] "t" [ET.Elem "c" [] "" [] " "] (ET.chr 10))
  = "<b x=" ++ ET.chr 34 ++ "1&lt;2" ++ ET.chr 34 ++ ">t<c /> </b>" ++ ET.chr 10.
Proof. vm_compute. reflexivity. Qed.

(** ** Identifiers (db_processor.generate_unique_id) *)

Lemma unique_id_sites_agree (name version : string) :
  ModletFinder.unique_id name version
  = DBProcessor.generate_unique_id name version.
Proof. reflexivity. Qed.






Example alpha_identifier :
  DBProcessor.generate_unique_id "Alpha" "1.0"
  = "048ec01272207182f21f6af8cf874b43".
Proof. vm_compute. reflexivity. Qed.

(** ** Decoding stored values (db_processor._decode_data) *)

Section Decoding.
Context `{Base64}.

Lemma decode_empty (enc : string) :
  DBProcessor._decode_data enc "" = Py.Ok "".
Proof. reflexivity. Qed.

Lemma decode_plain (enc data : string) :
  String.eqb enc "base64" = false ->
  DBProcessor._decode_data enc data = Py.Ok data.
Proof.
  intros Henc. unfold DBProcessor._decode_data. rewrite Henc.
  destruct (String.eqb_spec data ""); subst; reflexivity.
Qed.

(** Under base64 a stored value with a character outside ASCII makes
    [data.encode('ascii')] raise [UnicodeEncodeError], which the handler for
    [binascii.Error] and [UnicodeDecodeError] does not catch. *)
Lemma decode_non_ascii_raises (data : string) :
  Py.all_ascii data = false ->
  DBProcessor._decode_data "base64" data = Py.Raise Py.UnicodeEncodeError.
Proof.
  intros Hna. unfold DBProcessor._decode_data.
  destruct (String.eqb_spec data "") as [->|_]; [discriminate|].
  cbn [String.eqb Ascii.eqb]. unfold Py.encode_ascii. rewrite Hna.
  reflexivity.
Qed.

(** With plain-ASCII data the call returns. *)
Lemma decode_ascii_returns (data : string) :
  Py.all_ascii data = true ->
  exists text, DBProcessor._decode_data "base64" data = Py.Ok text.
Proof.
  intros Ha. unfold DBProcessor._decode_data.
  destruct (String.eqb data ""); [eexists; reflexivity|].
  cbn [String.eqb Ascii.eqb]. unfold Py.encode_ascii. rewrite Ha. cbn [Py.bind].
  destruct (b64decode (Py.encode_utf8 data)) as [raw|];
    [destruct (utf8_decode raw)|]; rewrite ?Ha; eexists; reflexivity.
Qed.

(** C9 at its failing input: decoding the stored modlet name [Caf\u00e9]
    raises, whatever the base64 library answers. *)
Theorem C9_decode_raises_on_non_ascii :
  DBProcessor._decode_data "base64" Examples.cafe
  = Py.Raise Py.UnicodeEncodeError.
Proof. apply decode_non_ascii_raises. reflexivity. Qed.

End Decoding.

(** ** The difference percentages *)

Lemma count_changes_le (original stored : string) :
  (XMLParser.count_changes original stored
   <= Nat.min (String.length original) (String.length stored))%nat.
Proof.
  revert stored.
  induction original as [|a r IH]; intros [|b r']; cbn; try lia.
  specialize (IH r'). destruct (Ascii.eqb a b); lia.
Qed.

Lemma changes_le_longest (original stored : string) :
  (XMLParser.count_changes original stored
   + XMLParser.abs_diff (String.length original) (String.length stored)
   <= Nat.max (String.length original) (String.length stored))%nat.
Proof.
  pose proof (count_changes_le original stored).
  unfold XMLParser.abs_diff. lia.
Qed.

Lemma longest_zero_equal (original stored : string) :
  Nat.max (String.length original) (String.length stored) = 0%nat ->
  original = stored.
Proof.
  destruct original, stored; cbn; intros; try reflexivity; lia.
Qed.

Lemma Zpos_of_nat (n : nat) : n <> 0%nat -> Z.pos (Pos.of_nat n) = Z.of_nat n.
Proof.
  intros Hn. destruct n as [|k]; [contradiction|].
  rewrite <- Pos.of_nat_succ, Zpos_P_of_succ_nat. lia.
Qed.

Lemma percent_bounds (changes longest : nat) :
  (changes <= longest)%nat -> longest <> 0%nat ->
  (0 <= (Z.of_nat changes # Pos.of_nat longest) * 100
   /\ (Z.of_nat changes # Pos.of_nat longest) * 100 <= 100)%Q.
Proof.
  intros Hle Hpos. unfold Qle, Qmult. cbn [Qnum Qden].
  rewrite Pos.mul_1_r, Zpos_of_nat by assumption. lia.
Qed.

(** What the two helpers compute, in one place. *)
Lemma difference_body_cases (original stored : string) :
  (original = stored /\ XMLParser.difference_body original stored = Py.Ok 0%Q)
  \/ (original <> stored
      /\ exists q, XMLParser.difference_body original stored = Py.Ok q
                   /\ (0 <= q /\ q <= 100)%Q).
Proof.
  unfold XMLParser.difference_body.
  destruct (String.eqb_spec original stored) as [Heq|Hne]; [left; auto|right].
  split; [assumption|].
  destruct (Nat.eqb_spec
              (Nat.max (String.length original) (String.length stored)) 0)
    as [Hz|Hnz].
  - apply longest_zero_equal in Hz. contradiction.
  - eexists. split; [reflexivity|].
    apply percent_bounds; [apply changes_le_longest | assumption].
Qed.

Lemma calculate_difference_is_body (original stored : string) :
  LocalizationParser.calculate_difference original stored
  = XMLParser.difference_body original stored.
Proof. reflexivity. Qed.

(** C10: for every two strings both helpers return, the value lies between
    0 and 100, and it is 0 when the strings are equal. *)
Theorem C10_difference_percentage_bounds :
  forall original stored : string,
    (exists q,
        LocalizationParser.calculate_difference original stored = Py.Ok q
        /\ (0 <= q)%Q /\ (q <= 100)%Q
        /\ (original = stored -> q = 0%Q))
    /\ (0 <= XMLParser._calculate_difference_percentage original stored)%Q
    /\ (XMLParser._calculate_difference_percentage original stored <= 100)%Q
    /\ (original = stored ->
        XMLParser._calculate_difference_percentage original stored = 0%Q).
Proof.
  intros original stored.
  rewrite calculate_difference_is_body.
  unfold XMLParser._calculate_difference_percentage.
  destruct (difference_body_cases original stored)
    as [[Heq Hbody]|[Hne [q [Hbody [Hlo Hhi]]]]]; rewrite Hbody.
  - split; [exists 0%Q|]; repeat split; auto; unfold Qle; cbn; lia.
  - split; [exists q|]; repeat split; auto; intros; contradiction.
Qed.

Example difference_of_kitten_sitting :
  LocalizationParser.calculate_difference "kitten" "sitting" = Py.Ok (300 # 7)%Q
  /\ XMLParser._calculate_difference_percentage "abc" "abd" = (100 # 3)%Q.
Proof. split; reflexivity. Qed.

(** ** The intermediate store *)

Section Store.
Context `{Base64}.

Lemma wf_empty (enc : string) : wf (DBProcessor.empty enc).
Proof. split; constructor. Qed.

Lemma filter_fresh {A : Type} (id_of : A -> N) (next : N) (rows : list A) :
  Forall (fun r => (id_of r < next)%N) rows ->
  filter (fun r => negb (id_of r =? next)%N) rows = rows.
Proof.
  induction 1 as [|r rows Hr _ IH]; cbn; [reflexivity|].
  destruct (N.eqb_spec (id_of r) next); [lia|]. cbn. now rewrite IH.
Qed.

Lemma Forall_le_lt_succ {A : Type} (id_of : A -> N) (n : N) (rows : list A) :
  Forall (fun r => (id_of r <= n)%N) rows ->
  Forall (fun r => (id_of r < n + 1)%N) rows.
Proof. apply Forall_impl. intros; lia. Qed.

(** INSERT OR REPLACE never finds a row to replace in [localization_data]:
    the new row is added behind all the rows already there. *)
Lemma store_localization_appends (d : DBProcessor.db) (items : list string) :
  wf d ->
  DBProcessor.localization_data (DBProcessor.store_localization_data d items)
  = (DBProcessor.localization_data d
     ++ [DBProcessor.LocRow (DBProcessor.loc_seq d + 1)
           (map (DBProcessor._encode_data (DBProcessor.encoding d)) items)])%list.
Proof.
  intros [_ Hloc]. cbn.
  now rewrite filter_fresh by (apply Forall_le_lt_succ; exact Hloc).
Qed.

Lemma store_xml_appends (d : DBProcessor.db)
    (modlet_name unique_id full_path short_path outer_tag content : string) :
  wf d ->
  DBProcessor.xml_data
    (DBProcessor.store_xml_data d modlet_name unique_id full_path short_path
       outer_tag content)
  = (DBProcessor.xml_data d
     ++ [DBProcessor.XmlRow (DBProcessor.xml_seq d + 1) modlet_name unique_id
           full_path short_path outer_tag
           (DBProcessor._encode_data (DBProcessor.encoding d) content)])%list.
Proof.
  intros [Hxml _]. cbn.
  now rewrite filter_fresh by (apply Forall_le_lt_succ; exact Hxml).
Qed.

Lemma Forall_le_succ {A : Type} (id_of : A -> N) (n : N) (rows : list A) :
  Forall (fun r => (id_of r <= n)%N) rows ->
  Forall (fun r => (id_of r <= n + 1)%N) rows.
Proof. apply Forall_impl. intros; lia. Qed.

Lemma wf_store_localization (d : DBProcessor.db) (items : list string) :
  wf d -> wf (DBProcessor.store_localization_data d items).
Proof.
  intros Hwf. pose proof (store_localization_appends d items Hwf) as Happ.
  destruct Hwf as [Hxml Hloc]. split; [exact Hxml|].
  rewrite Happ. cbn [DBProcessor.loc_seq DBProcessor.store_localization_data].
  apply Forall_app. split.
  - apply Forall_le_succ. exact Hloc.
  - repeat constructor. cbn. lia.
Qed.

Lemma wf_store_xml (d : DBProcessor.db) (mn uid fp sp tag content : string) :
  wf d -> wf (DBProcessor.store_xml_data d mn uid fp sp tag content).
Proof.
  intros Hwf. pose proof (store_xml_appends d mn uid fp sp tag content Hwf) as Happ.
  destruct Hwf as [Hxml Hloc]. split; [|exact Hloc].
  rewrite Happ. cbn [DBProcessor.xml_seq DBProcessor.store_xml_data].
  apply Forall_app. split.
  - apply Forall_le_succ. exact Hxml.
  - repeat constructor. cbn. lia.
Qed.

(** The sibling table [modlets] has a key, and there REPLACE replaces: a
    second descriptor with the same name and version leaves one row. *)
Lemma store_modlet_info_replaces (enc name description1 description2 author
    version website : string) :
  let d1 := fst (DBProcessor.store_modlet_info (DBProcessor.empty enc)
                   name description1 author version website) in
  let d2 := fst (DBProcessor.store_modlet_info d1
                   name description2 author version website) in
  DBProcessor.modlets d2
  = [DBProcessor.ModletRow (DBProcessor.generate_unique_id name version)
       name description2 author version website].
Proof.
  cbv zeta. unfold DBProcessor.store_modlet_info.
  cbn [fst DBProcessor.modlets DBProcessor.empty filter app
       DBProcessor.m_unique_id].
  now rewrite String.eqb_refl.
Qed.

(** C3 at its failing input: the same modlet stores the key [greeting] of
    the same file twice.  The table then holds both rows, the earlier one
    first; nothing was replaced. *)
Theorem C3_same_key_and_path_stored_twice :
  forall enc : string,
    let path := "/mods/Alpha/Config/Localization.txt" in
    let uid := DBProcessor.generate_unique_id "Alpha" "1.0" in
    let first := loc_items "Alpha" uid path "greeting" "Hello" in
    let second := loc_items "Alpha" uid path "greeting" "Hi" in
    let d := DBProcessor.store_localization_data
               (DBProcessor.store_localization_data (DBProcessor.empty enc) first)
               second in
    DBProcessor.localization_data d
    = [DBProcessor.LocRow 1 (map (DBProcessor._encode_data enc) first);
       DBProcessor.LocRow 2 (map (DBProcessor._encode_data enc) second)]
    /\ nth 8 first "" = "greeting" /\ nth 8 second "" = "greeting"
    /\ nth 2 first "" = nth 2 second ""
    /\ nth 0 first "" = nth 0 second "".
Proof.
  intros enc. cbv zeta. repeat split.
Qed.

End Store.

(** ** The localization row normalizer (parser_localization.parse) *)

Section RowNormalizer.
Context `{Base64}.







End RowNormalizer.

(** A row of exactly 19 fields after the header leaves the store empty and
    one warning in the log; a row of 21 fields is stored with its first 20. *)
Example nineteen_and_twenty_one_fields :
  let parse := @LocalizationParser.parse_rows Base64Ref.reference
                 (DBProcessor.empty "base64") [] "/mods/Alpha/Config/Localization.txt"
                 "Alpha" "id" in
  parse [["Key"]; Examples.loc_fields "k" 19]
  = (DBProcessor.empty "base64",
     [LocalizationParser.InsufficientColumns 2 (Examples.loc_fields "k" 19);
      LocalizationParser.Finished 1], Py.Ok tt)
  /\ List.length (DBProcessor.localization_data
                    (fst (fst (parse [["Key"]; Examples.loc_fields "k" 21]))))
     = 1%nat
  /\ parse [["Key"]; Examples.loc_fields "k" 21]
     = parse [["Key"]; Examples.loc_fields "k" 20]
  /\ snd (parse [["Key"]]) = Py.Raise Py.UnboundLocalError.
Proof. vm_compute. repeat split; reflexivity. Qed.


(** ** File discovery (file_locator.locate_files) *)

(** The exclusion list is compared with the directory, never with a file
    name: inside a directory that is kept, every name ending in [.xml] is
    collected. *)
Lemma visit_files_collects_every_xml (root : string) (files : list string)
    (st : FileLocator.state) (found : list string) :
  snd (FileLocator.visit_files ".xml" root files st found)
  = (found ++ map (Py.path_join root)
                  (filter (fun f => Py.endswith f ".xml") files))%list.
Proof.
  revert st found.
  induction files as [|file rest IH]; intros st found; cbn [FileLocator.visit_files].
  - cbn. now rewrite app_nil_r.
  - change (String.eqb ".xml" ".xml") with true.
    change (String.eqb ".xml" "Localization.txt") with false.
    cbn [andb filter].
    destruct (Py.endswith file ".xml").
    + rewrite IH. cbn [map]. now rewrite <- app_assoc.
    + apply IH.
Qed.

(** C7 at its failing input: in the modlet directory [/mods/Alpha] the
    search for fragments, called with the exclusion [ModInfo.xml], returns
    the descriptor next to [Config/items.xml]; the descriptor is then parsed
    and stored as a content block of its own. *)
Theorem C7_descriptor_collected_as_fragment :
  snd (FileLocator.locate_files FileLocator.init ".xml" Examples.alpha_root
         Examples.alpha_entries (Some ["ModInfo.xml"]))
  = ["/mods/Alpha/ModInfo.xml"; "/mods/Alpha/Config/items.xml"]
  /\ map (fun r => (DBProcessor.x_short_path r, DBProcessor.x_outer_tag r))
         (DBProcessor.xml_data
            (FileLocator.store
               (@ModletFinder._process_modlet_files Base64Ref.reference
                  Examples.element_tree Examples.no_csv
                  (FileLocator.World FileLocator.init (DBProcessor.empty "base64")
                                     [] [])
                  Examples.alpha_root Examples.alpha_entries "Alpha"
                  (DBProcessor.generate_unique_id "Alpha" "1.0"))))
     = [("ModInfo.xml", "xml"); ("items.xml", "items")].
Proof. split; vm_compute; reflexivity. Qed.

(** ** The combined localization table (modlet_writer._write_localization_file) *)



Lemma header_line_text :
  ModletWriter.header_line
  = "Key,File,Type,UsedInMainMenu,NoTranslate,english,Context / Alternate Text,"
    ++ "german,latam,french,italian,japanese,koreana,polish,brazilian,russian,"
    ++ "turkish,schinese,tchinese,spanish" ++ ET.chr 10.
Proof. reflexivity. Qed.

Lemma quoted_columns_designated (column : string) :
  ModletWriter.in_list column Configuration.QUOTED_COLUMNS = designated column.
Proof. reflexivity. Qed.

Lemma field_cases (e : DBProcessor.entry) (column : string) :
  ModletWriter.field e column
  = if designated column && negb (String.eqb (ModletWriter.entry_get e column) "")
    then ET.chr 34 ++ ModletWriter.entry_get e column ++ ET.chr 34
    else ModletWriter.entry_get e column.
Proof.
  unfold ModletWriter.field, DBProcessor.truthy.
  rewrite quoted_columns_designated, andb_comm. reflexivity.
Qed.





(** ** The integrity reporter (xml_writer.check_total_filesize) *)

Example pretty_print_items :
  @XMLWriter.pretty_print Examples.minidom Examples.items_content
  = "  <config>" ++ Examples.nl ++ "    <items>" ++ Examples.nl
    ++ "      <ironSword/>" ++ Examples.nl ++ "      <ironShield/>"
    ++ Examples.nl ++ "    </items>" ++ Examples.nl ++ "  </config>".
Proof. vm_compute. reflexivity. Qed.


(** With nothing recorded the division raises, and [_write_xml_files] passes
    the exception on. *)
Lemma check_total_filesize_nothing_written :
  XMLWriter.check_total_filesize XMLWriter.init = Py.Raise Py.ZeroDivisionError.
Proof. reflexivity. Qed.

Lemma write_xml_files_empty_store `{Base64} `{MiniDomLib} (enc out : string) :
  ModletWriter._write_xml_files (DBProcessor.empty enc) out
    (ModletWriter.State XMLWriter.init [] [])
  = Py.Raise Py.ZeroDivisionError.
Proof. reflexivity. Qed.




(** ** The XML fragment normalizer (parser_xml.parse) *)






Section Normalizer.
Context `{Base64} `{ElementTreeLib}.

(** A file that does not parse leaves the store as it was and one error in
    the log. *)
Lemma parse_malformed (d : DBProcessor.db) (log : list XMLParser.log_event)
    (fp mn uid content : string) :
  fromstring (XMLParser.prepare content) = None ->
  XMLParser.parse d log fp mn uid content
  = (d, (log ++ [XMLParser.ErrorParsing fp])%list).
Proof. intros Hp. unfold XMLParser.parse. now rewrite Hp. Qed.


End Normalizer.



(** ** The merge assembler (db_processor.get_xml_data, modlet_writer._write_xml_files) *)

Section Assembler.
Context `{Base64}.

Lemma fetch_xml_fold (enc : string) (rows : list DBProcessor.xml_row)
    (acc : DBProcessor.xml_dict) :
  DBProcessor.fetch_xml enc rows acc
  = Py.bind
      (Py.mapM (fun r =>
                  Py.bind (DBProcessor._decode_data enc (DBProcessor.x_content r))
                          (fun content =>
                             Py.Ok (DBProcessor.x_short_path r,
                                    DBProcessor.x_outer_tag r, content)))
               rows)
      (fun bs => Py.Ok (fold_left add_block bs acc)).
Proof.
  revert acc. induction rows as [|r rows IH]; intros acc; cbn; [reflexivity|].
  destruct (DBProcessor._decode_data enc (DBProcessor.x_content r)) as [c|e];
    cbn; [|reflexivity].
  rewrite IH.
  destruct (Py.mapM _ rows); reflexivity.
Qed.

Lemma get_xml_data_recorded (d : DBProcessor.db) :
  DBProcessor.get_xml_data d "" "" ""
  = Py.bind (recorded d) (fun bs => Py.Ok (group bs)).
Proof. unfold DBProcessor.get_xml_data. cbn [DBProcessor.truthy String.eqb negb andb]. apply fetch_xml_fold. Qed.

End Assembler.

(** *** Insertion-ordered dictionaries *)

Lemma dict_get_append_at_same {V : Type} (k : string) (upd : option V -> V)
    (l : list (string * V)) :
  XMLWriter.dict_get k (DBProcessor.append_at k upd l)
  = Some (upd (XMLWriter.dict_get k l)).
Proof.
  induction l as [|[k' v] l IH]; cbn.
  - now rewrite String.eqb_refl.
  - destruct (String.eqb k' k) eqn:E; cbn; rewrite E; [reflexivity|exact IH].
Qed.

Lemma dict_get_append_at_other {V : Type} (k k0 : string) (upd : option V -> V)
    (l : list (string * V)) :
  k0 <> k ->
  XMLWriter.dict_get k0 (DBProcessor.append_at k upd l) = XMLWriter.dict_get k0 l.
Proof.
  intros Hne. induction l as [|[k' v] l IH]; cbn.
  - destruct (String.eqb_spec k k0); [congruence|reflexivity].
  - destruct (String.eqb_spec k' k) as [->|Hk]; cbn.
    + destruct (String.eqb_spec k k0); [congruence|reflexivity].
    + destruct (String.eqb k' k0); [reflexivity|exact IH].
Qed.

Lemma keys_append_at {V : Type} (k : string) (upd : option V -> V)
    (l : list (string * V)) :
  map fst (DBProcessor.append_at k upd l)
  = if ModletWriter.in_list k (map fst l) then map fst l
    else (map fst l ++ [k])%list.
Proof.
  induction l as [|[k' v] l IH]; cbn; [reflexivity|].
  rewrite (String.eqb_sym k k').
  destruct (String.eqb k' k); cbn; [reflexivity|].
  rewrite IH. unfold ModletWriter.in_list.
  destruct (existsb (String.eqb k) (map fst l)); reflexivity.
Qed.

Lemma in_list_In (x : string) (l : list string) :
  ModletWriter.in_list x l = true <-> In x l.
Proof.
  unfold ModletWriter.in_list. rewrite existsb_exists. split.
  - intros [y [Hy Heq]]. apply String.eqb_eq in Heq. now subst.
  - intros Hin. exists x. split; [assumption|apply String.eqb_refl].
Qed.

Lemma in_list_false (x : string) (l : list string) :
  ModletWriter.in_list x l = false <-> ~ In x l.
Proof.
  rewrite <- in_list_In. destruct (ModletWriter.in_list x l); split; congruence.
Qed.

Lemma first_seen_snoc (l : list string) (x : string) :
  first_seen (l ++ [x])
  = if ModletWriter.in_list x (first_seen l) then first_seen l
    else (first_seen l ++ [x])%list.
Proof. unfold first_seen. now rewrite fold_left_app. Qed.

Lemma first_seen_In (l : list string) (x : string) :
  In x (first_seen l) <-> In x l.
Proof.
  induction l as [|y l IH] using rev_ind; [reflexivity|].
  rewrite first_seen_snoc, in_app_iff.
  destruct (ModletWriter.in_list y (first_seen l)) eqn:E.
  - apply in_list_In in E. rewrite IH in *. cbn. intuition (subst; auto).
  - rewrite in_app_iff, IH. reflexivity.
Qed.

Lemma first_seen_NoDup (l : list string) : NoDup (first_seen l).
Proof.
  induction l as [|y l IH] using rev_ind; [constructor|].
  rewrite first_seen_snoc.
  destruct (ModletWriter.in_list y (first_seen l)) eqn:E; [assumption|].
  apply in_list_false in E.
  apply NoDup_app; [assumption|repeat constructor; intros []|].
  intros a Ha [<-|[]]. contradiction.
Qed.

(** Updating a dictionary laid out over distinct keys. *)
Lemma append_at_over_keys {V : Type} (t : string) (upd : option V -> V)
    (f : string -> V) (keys : list string) :
  NoDup keys ->
  DBProcessor.append_at t upd (map (fun u => (u, f u)) keys)
  = if ModletWriter.in_list t keys
    then map (fun u => (u, if String.eqb u t then upd (Some (f u)) else f u)) keys
    else (map (fun u => (u, f u)) keys ++ [(t, upd None)])%list.
Proof.
  induction 1 as [|k keys Hk Hnd IH]; cbn; [reflexivity|].
  rewrite (String.eqb_sym t k).
  destruct (String.eqb_spec k t) as [->|Hne]; cbn.
  - f_equal. apply map_ext_in. intros u Hu.
    destruct (String.eqb_spec u t) as [->|_]; [contradiction|reflexivity].
  - rewrite IH. unfold ModletWriter.in_list.
    destruct (existsb (String.eqb t) keys); reflexivity.
Qed.

Lemma filter_snoc {A : Type} (p : A -> bool) (l : list A) (x : A) :
  filter p (l ++ [x]) = (filter p l ++ if p x then [x] else [])%list.
Proof. rewrite filter_app. reflexivity. Qed.

Lemma contents_of_snoc (sp t : string) (bs : list block) (b : block) :
  contents_of sp t (bs ++ [b])
  = (contents_of sp t bs ++ if at_path_tag sp t b then [b_content b] else [])%list.
Proof.
  unfold contents_of. rewrite filter_snoc, map_app.
  destruct (at_path_tag sp t b); reflexivity.
Qed.

Lemma tags_of_snoc (sp : string) (bs : list block) (b : block) :
  tags_of sp (bs ++ [b])
  = if at_path sp b
    then if ModletWriter.in_list (b_tag b) (tags_of sp bs) then tags_of sp bs
         else (tags_of sp bs ++ [b_tag b])%list
    else tags_of sp bs.
Proof.
  unfold tags_of. rewrite filter_snoc.
  destruct (at_path sp b); rewrite map_app; cbn [map].
  - apply first_seen_snoc.
  - now rewrite app_nil_r.
Qed.

(** A tag that was not seen for a path has no text recorded under it. *)
Lemma contents_of_unseen (sp t : string) (bs : list block) :
  ~ In t (tags_of sp bs) -> contents_of sp t bs = [].
Proof.
  unfold tags_of, contents_of. rewrite first_seen_In, in_map_iff.
  intros Hno.
  assert (Hall : forall b, In b bs -> at_path_tag sp t b = false).
  { intros b Hb. destruct (at_path_tag sp t b) eqn:E; [|reflexivity].
    exfalso. apply Hno. unfold at_path_tag in E.
    apply andb_true_iff in E as [E1 E2]. apply String.eqb_eq in E2.
    exists b. split; [assumption|]. apply filter_In. now split. }
  clear Hno. induction bs as [|b bs IH]; cbn; [reflexivity|].
  rewrite Hall by now left. apply IH. intros b' Hb'. apply Hall. now right.
Qed.

Lemma group_snoc (bs : list block) (b : block) :
  group (bs ++ [b]) = add_block (group bs) b.
Proof. unfold group. now rewrite fold_left_app. Qed.

Lemma tags_of_no_path (sp : string) (bs : list block) :
  existsb (at_path sp) bs = false -> tags_of sp bs = [].
Proof.
  intros Hno. unfold tags_of.
  replace (filter (at_path sp) bs) with (@nil block); [reflexivity|].
  symmetry. induction bs as [|b bs IH]; cbn in *; [reflexivity|].
  apply orb_false_iff in Hno as [Hb Hrest]. rewrite Hb. now apply IH.
Qed.

Lemma layout_no_path (sp : string) (bs : list block) :
  existsb (at_path sp) bs = false -> layout sp bs = [].
Proof. intros Hno. unfold layout. now rewrite tags_of_no_path. Qed.

(** One more block at this path: its text goes behind the texts of its tag,
    and a tag not seen before opens a new group at the end. *)
Lemma layout_snoc_same (sp : string) (bs : list block) (b : block) :
  b_path b = sp ->
  DBProcessor.append_at (b_tag b)
    (fun l => match l with
              | Some cs => (cs ++ [b_content b])%list
              | None => [b_content b]
              end)
    (layout sp bs)
  = layout sp (bs ++ [b]).
Proof.
  intros Hp.
  assert (Hat : at_path sp b = true)
    by (unfold at_path; rewrite Hp; apply String.eqb_refl).
  unfold layout at 1.
  rewrite append_at_over_keys by apply first_seen_NoDup.
  unfold layout. rewrite tags_of_snoc, Hat.
  destruct (ModletWriter.in_list (b_tag b) (tags_of sp bs)) eqn:Hseen.
  - apply map_ext. intros u. rewrite contents_of_snoc.
    unfold at_path_tag. rewrite Hp, String.eqb_refl. cbn [andb].
    rewrite (String.eqb_sym (b_tag b) u).
    destruct (String.eqb u (b_tag b)); [reflexivity|now rewrite app_nil_r].
  - apply in_list_false in Hseen. rewrite map_app. cbn [map]. f_equal.
    + apply map_ext_in. intros u Hu. rewrite contents_of_snoc.
      unfold at_path_tag. rewrite Hp, String.eqb_refl. cbn [andb].
      destruct (String.eqb_spec (b_tag b) u) as [<-|_];
        [contradiction|now rewrite app_nil_r].
    + rewrite contents_of_snoc, (contents_of_unseen sp (b_tag b) bs Hseen).
      unfold at_path_tag. now rewrite Hp, !String.eqb_refl.
Qed.

Lemma layout_snoc_other (sp : string) (bs : list block) (b : block) :
  b_path b <> sp -> layout sp (bs ++ [b]) = layout sp bs.
Proof.
  intros Hp.
  assert (Hat : String.eqb (b_path b) sp = false)
    by (destruct (String.eqb_spec (b_path b) sp); congruence).
  unfold layout. rewrite tags_of_snoc. unfold at_path. rewrite Hat.
  apply map_ext. intros u. rewrite contents_of_snoc.
  unfold at_path_tag. rewrite Hat. cbn [andb]. now rewrite app_nil_r.
Qed.

(** The dictionary [get_xml_data] builds, read at one path. *)
Lemma group_at_path (bs : list block) (sp : string) :
  XMLWriter.dict_get sp (group bs)
  = if existsb (at_path sp) bs then Some (layout sp bs) else None.
Proof.
  induction bs as [|b bs IH] using rev_ind; [reflexivity|].
  rewrite group_snoc, existsb_app. cbn [existsb]. rewrite orb_false_r.
  unfold add_block, DBProcessor.add_content.
  destruct (String.eqb_spec (b_path b) sp) as [Hp|Hp].
  - rewrite Hp at 1. rewrite dict_get_append_at_same. cbv beta.
    unfold at_path at 2. rewrite Hp, String.eqb_refl, orb_true_r. f_equal.
    rewrite <- (layout_snoc_same sp bs b Hp), IH.
    destruct (existsb (at_path sp) bs) eqn:E; [reflexivity|].
    now rewrite layout_no_path.
  - rewrite dict_get_append_at_other by congruence.
    unfold at_path at 2.
    destruct (String.eqb_spec (b_path b) sp); [contradiction|].
    rewrite orb_false_r, IH, layout_snoc_other by assumption. reflexivity.
Qed.

(** One output file per distinct path, in the order of first appearance. *)
Lemma group_paths (bs : list block) :
  map fst (group bs) = first_seen (map b_path bs).
Proof.
  induction bs as [|b bs IH] using rev_ind; [reflexivity|].
  rewrite group_snoc, map_app. cbn [map]. rewrite first_seen_snoc.
  unfold add_block, DBProcessor.add_content.
  now rewrite keys_append_at, IH.
Qed.








(** What is handed to the writer for a file: every block of [file_blocks],
    in that order, between its two comment markers. *)
Lemma combined_content_blocks `{Base64} (d : DBProcessor.db) (sp : string)
    (tags : DBProcessor.tag_dict) (combined : list string) :
  ModletWriter.combined_content d sp tags = Py.Ok combined ->
  exists names : list string,
    List.length names = List.length (ModletWriter.file_blocks tags)
    /\ combined
       = List.concat
           (map (fun nb => ModletWriter.wrap_block (fst nb) (snd (snd nb)))
                (combine names (ModletWriter.file_blocks tags))).
Proof.
  unfold ModletWriter.combined_content.
  revert combined.
  induction (ModletWriter.file_blocks tags) as [|tc blocks IH];
    intros combined; cbn [Py.mapM Py.bind].
  - intros [= <-]. exists []. split; reflexivity.
  - destruct (DBProcessor.get_xml_metadata_name d sp (fst tc) (snd tc))
      as [name|e]; cbn [Py.bind]; [|discriminate].
    destruct (Py.mapM _ blocks) as [parts|e]; cbn [Py.bind] in *; [|discriminate].
    intros [= <-].
    destruct (IH (List.concat parts) eq_refl) as [names [Hlen Hparts]].
    exists (name :: names). split; [cbn; now rewrite Hlen|].
    cbn [combine map List.concat fst snd]. now rewrite <- Hparts.
Qed.

(** The text handed to the writer for [windows.xml].  Under base64 the
    lookup of the owning modlet compares the decoded text with the encoded
    column and finds no row. *)
Example windows_full_content :
  ModletWriter.combined_content (H := Base64Ref.reference) windows_store
    "windows.xml" [("windows", ["<a1 />"; "<b1 />"]); ("append", ["<a2 />"])]
  = Py.Ok ["<!-- Start XML_Block: Unknown -->"; "<a1 />";
           "<!-- End XML_Block: Unknown -->";
           "<!-- Start XML_Block: Unknown -->"; "<b1 />";
           "<!-- End XML_Block: Unknown -->";
           "<!-- Start XML_Block: Unknown -->"; "<a2 />";
           "<!-- End XML_Block: Unknown -->"].
Proof. vm_compute. reflexivity. Qed.

(** * Further properties of the code *)

(** ** file_locator.locate_files, in general *)

Lemma visit_files_spec (file_type root : string) (files : list string)
    (st : FileLocator.state) (found : list string) :
  let hits := map (Py.path_join root) (filter (wanted file_type) files) in
  FileLocator.visit_files file_type root files st found
  = (FileLocator.State
       (FileLocator.xml_files st
        ++ if String.eqb file_type ".xml" then hits else [])
       (FileLocator.localization_files st
        ++ if String.eqb file_type ".xml" then [] else hits)
       (FileLocator.total_char_count st),
     found ++ hits)%list.
Proof.
  revert st found. unfold wanted.
  induction files as [|file rest IH]; intros st found; cbn [FileLocator.visit_files].
  - cbn. destruct st. cbn. destruct (String.eqb file_type ".xml");
      now rewrite !app_nil_r.
  - destruct (String.eqb_spec file_type ".xml") as [->|Hx].
    + change (String.eqb ".xml" "Localization.txt") with false.
      cbn [andb orb filter]. rewrite !orb_false_r.
      destruct (Py.endswith file ".xml"); rewrite IH; cbn [map
        FileLocator.xml_files FileLocator.localization_files
        FileLocator.total_char_count];
        rewrite <- ?app_assoc; reflexivity.
    + cbn [andb orb filter].
      destruct (String.eqb file_type "Localization.txt"
                && String.eqb (Py.lower file) "localization.txt");
        rewrite IH; cbn [map FileLocator.xml_files FileLocator.localization_files
        FileLocator.total_char_count];
        rewrite <- ?app_assoc; reflexivity.
Qed.

Lemma visit_walk_spec (file_type : string) (exclude : option (list string))
    (walked : list (string * list string)) (st : FileLocator.state)
    (found : list string) :
  let hits := flat_map (found_in file_type exclude) walked in
  FileLocator.visit_walk file_type exclude walked st found
  = (FileLocator.State
       (FileLocator.xml_files st
        ++ if String.eqb file_type ".xml" then hits else [])
       (FileLocator.localization_files st
        ++ if String.eqb file_type ".xml" then [] else hits)
       (FileLocator.total_char_count st),
     found ++ hits)%list.
Proof.
  revert st found.
  induction walked as [|[root files] rest IH]; intros st found;
    cbn [FileLocator.visit_walk flat_map].
  - destruct st. cbn. destruct (String.eqb file_type ".xml");
      now rewrite !app_nil_r.
  - cbv zeta in IH. cbv zeta.
    destruct (FileLocator.excluded exclude root) eqn:Hex.
    + assert (Hf : found_in file_type exclude (root, files) = [])
        by (unfold found_in; cbn [fst snd]; now rewrite Hex).
      rewrite Hf, IH. reflexivity.
    + assert (Hf : found_in file_type exclude (root, files)
                   = map (Py.path_join root) (filter (wanted file_type) files))
        by (unfold found_in; cbn [fst snd]; now rewrite Hex).
      rewrite Hf. pose proof (visit_files_spec file_type root files st found) as Hv.
      cbv zeta in Hv. rewrite Hv, IH.
      cbn [FileLocator.xml_files FileLocator.localization_files
           FileLocator.total_char_count].
      destruct (String.eqb file_type ".xml");
        rewrite <- ?app_assoc, ?app_nil_r; reflexivity.
Qed.

(** X1: a search returns, in the order of the walk, the wanted files of
    every directory whose path contains none of the excluded strings: for
    [.xml] the names that end in [.xml], for [Localization.txt] the names
    that are [localization.txt] once lower-cased.  The exclusion is decided
    on the directory alone, and the files found are added behind those the
    locator already holds from earlier searches. *)
Theorem X1_locate_files_found :
  forall (st : FileLocator.state) (file_type path : string)
         (entries : list FS.node) (exclude : option (list string)),
    let found := flat_map (found_in file_type exclude) (FS.walk path entries) in
    let st' := fst (FileLocator.locate_files st file_type path entries exclude) in
    snd (FileLocator.locate_files st file_type path entries exclude) = found
    /\ FileLocator.xml_files st'
       = (FileLocator.xml_files st
          ++ if String.eqb file_type ".xml" then found else [])%list
    /\ FileLocator.localization_files st'
       = (FileLocator.localization_files st
          ++ if String.eqb file_type ".xml" then [] else found)%list
    /\ (String.eqb file_type ".xml" = false ->
        String.eqb file_type "Localization.txt" = false -> found = []).
Proof.
  intros st file_type path entries exclude found st'.
  unfold st', FileLocator.locate_files. rewrite visit_walk_spec. cbv zeta.
  cbn [fst snd FileLocator.xml_files FileLocator.localization_files].
  fold found. repeat split.
  intros Hx Hl. unfold found, found_in, wanted. rewrite Hx, Hl. cbn [andb orb].
  induction (FS.walk path entries) as [|rf rest IH]; cbn [flat_map];
    [reflexivity|].
  rewrite IH. destruct (FileLocator.excluded exclude (fst rf)); [reflexivity|].
  cbn. induction (snd rf); cbn; auto.
Qed.


(** ** Short paths (parser_xml._get_short_path, parser_localization._get_short_path) *)

Lemma contains_char_cons (c a : ascii) (r : string) :
  Py.contains (String c "") (String a r)
  = Ascii.eqb c a || Py.contains (String c "") r.
Proof.
  cbn [Py.contains Py.startswith]. f_equal.
  destruct r; cbn [Py.startswith]; apply andb_true_r.
Qed.

Lemma split_on_not_nil (c : ascii) (s : string) : Py.split_on c s <> [].
Proof.
  destruct s as [|a r]; cbn; [discriminate|].
  destruct (Ascii.eqb a c); [discriminate|].
  destruct (Py.split_on c r); discriminate.
Qed.

Lemma split_on_app (c : ascii) (a b : string) :
  Py.split_on c (a ++ String c b) = (Py.split_on c a ++ Py.split_on c b)%list.
Proof.
  induction a as [|x a IH]; cbn [append Py.split_on].
  - now rewrite Ascii.eqb_refl.
  - destruct (Ascii.eqb x c); [now rewrite IH|].
    rewrite IH. pose proof (split_on_not_nil c a) as Hne.
    destruct (Py.split_on c a); [contradiction|reflexivity].
Qed.

Lemma split_on_free (c : ascii) (s : string) :
  Py.contains (String c "") s = false -> Py.split_on c s = [s].
Proof.
  induction s as [|a r IH]; [reflexivity|].
  rewrite contains_char_cons. intros Hfree.
  apply orb_false_iff in Hfree as [Ha Hr]. cbn [Py.split_on].
  rewrite Ascii.eqb_sym, Ha, (IH Hr). reflexivity.
Qed.

(** A text with the character [c] splits at its last [c]. *)
Lemma last_occurrence (c : ascii) (s : string) :
  Py.contains (String c "") s = true ->
  exists before after,
    s = (before ++ String c after)%string
    /\ Py.contains (String c "") after = false.
Proof.
  induction s as [|a r IH]; [discriminate|].
  rewrite contains_char_cons. intros Hin.
  destruct (Py.contains (String c "") r) eqn:Hr.
  - destruct (IH eq_refl) as [before [after [-> Hfree]]].
    exists (String a before), after. split; [reflexivity|assumption].
  - rewrite orb_false_r in Hin. apply Ascii.eqb_eq in Hin. subst a.
    exists "", r. split; [reflexivity|assumption].
Qed.

Lemma last_app_singleton {A : Type} (l : list A) (x d : A) :
  List.last (l ++ [x]) d = x.
Proof. apply last_last. Qed.

Lemma short_path_after_slash (dir name : string) :
  Py.contains "/" name = false ->
  XMLParser._get_short_path (dir ++ "/" ++ name) = name.
Proof.
  intros Hfree. unfold XMLParser._get_short_path.
  change (dir ++ "/" ++ name)%string with (dir ++ String "/" name)%string.
  rewrite split_on_app, (split_on_free "/" name Hfree). apply last_last.
Qed.

(** X2: the short path of an XML file is its base name: it holds no slash,
    and the full path is either the short path itself or a directory, a
    slash and the short path.  Files of the same name in different
    directories therefore share one short path. *)
Theorem X2_xml_short_path_is_base_name :
  forall full_path : string,
    let short := XMLParser._get_short_path full_path in
    Py.contains "/" short = false
    /\ (full_path = short
        \/ exists dir, full_path = (dir ++ "/" ++ short)%string)
    /\ (forall dir name : string,
          Py.contains "/" name = false ->
          XMLParser._get_short_path (dir ++ "/" ++ name) = name).
Proof.
  intros full_path short. unfold short.
  destruct (Py.contains "/" full_path) eqn:Hin.
  - destruct (last_occurrence "/" full_path Hin) as [dir [name [-> Hfree]]].
    change (dir ++ String "/" name)%string with (dir ++ "/" ++ name)%string.
    rewrite (short_path_after_slash dir name Hfree).
    split; [assumption|]. split; [right; now exists dir|].
    apply short_path_after_slash.
  - unfold XMLParser._get_short_path.
    rewrite (split_on_free "/" full_path Hin). cbn [List.last].
    split; [assumption|]. split; [now left|]. apply short_path_after_slash.
Qed.

(** X3: the short path of a localization table is made of the last two
    components of its path: the name of the directory that holds the file,
    a slash and the file name; a path of one or two components is its own
    short path. *)
Theorem X3_localization_short_path_last_two :
  forall full_path : string,
    (Py.contains "/" full_path = false ->
       LocalizationParser._get_short_path full_path = full_path)
    /\ (forall prefix dir name : string,
          full_path = (prefix ++ "/" ++ dir ++ "/" ++ name)%string ->
          Py.contains "/" dir = false -> Py.contains "/" name = false ->
          LocalizationParser._get_short_path full_path
          = (dir ++ "/" ++ name)%string)
    /\ (forall dir name : string,
          full_path = (dir ++ "/" ++ name)%string ->
          Py.contains "/" dir = false -> Py.contains "/" name = false ->
          LocalizationParser._get_short_path full_path = full_path).
Proof.
  intros full_path. unfold LocalizationParser._get_short_path. repeat split.
  - intros Hfree. now rewrite (split_on_free "/" _ Hfree).
  - intros prefix dir name -> Hd Hn.
    change (prefix ++ "/" ++ dir ++ "/" ++ name)%string
      with (prefix ++ String "/" (dir ++ String "/" name))%string.
    rewrite !split_on_app, (split_on_free "/" _ Hd), (split_on_free "/" _ Hn).
    rewrite !length_app. cbn [List.length].
    replace (List.length (Py.split_on "/" prefix) + (1 + 1) - 2)%nat
      with (List.length (Py.split_on "/" prefix) + 0)%nat by lia.
    rewrite skipn_app, Nat.add_0_r, skipn_all.
    replace (List.length (Py.split_on "/" prefix)
             - List.length (Py.split_on "/" prefix))%nat with 0%nat by lia.
    reflexivity.
  - intros dir name -> Hd Hn.
    change (dir ++ "/" ++ name)%string with (dir ++ String "/" name)%string.
    now rewrite split_on_app, (split_on_free "/" _ Hd), (split_on_free "/" _ Hn).
Qed.

(** ** parser_xml.parse, the preparation of the text *)



(** ** The modlets table (db_processor.store_modlet_info, get_modlet_info) *)

Lemma find_app_none {A : Type} (p : A -> bool) (l : list A) (x : A) :
  find p l = None -> find p (l ++ [x]) = if p x then Some x else None.
Proof.
  induction l as [|a l IH]; cbn; [reflexivity|].
  destruct (p a); [discriminate|exact IH].
Qed.

Lemma find_app_some {A : Type} (p : A -> bool) (l l' : list A) (a : A) :
  find p l = Some a -> find p (l ++ l') = Some a.
Proof.
  induction l as [|b l IH]; cbn; [discriminate|].
  destruct (p b); [trivial|exact IH].
Qed.

Lemma find_key_filtered (rows : list DBProcessor.modlet_row) (uid : string) :
  find (fun r => String.eqb (DBProcessor.m_unique_id r) uid)
       (filter (fun r => negb (String.eqb (DBProcessor.m_unique_id r) uid)) rows)
  = None.
Proof.
  induction rows as [|r rows IH]; cbn; [reflexivity|].
  destruct (String.eqb (DBProcessor.m_unique_id r) uid) eqn:E; cbn;
    [exact IH|]. now rewrite E.
Qed.

Lemma find_other_key_filtered (rows : list DBProcessor.modlet_row)
    (uid other : string) :
  other <> uid ->
  find (fun r => String.eqb (DBProcessor.m_unique_id r) other)
       (filter (fun r => negb (String.eqb (DBProcessor.m_unique_id r) uid)) rows)
  = find (fun r => String.eqb (DBProcessor.m_unique_id r) other) rows.
Proof.
  intros Hne. induction rows as [|r rows IH]; cbn; [reflexivity|].
  destruct (String.eqb_spec (DBProcessor.m_unique_id r) uid) as [Hu|Hu]; cbn.
  - destruct (String.eqb_spec (DBProcessor.m_unique_id r) other);
      [congruence|exact IH].
  - destruct (String.eqb (DBProcessor.m_unique_id r) other);
      [reflexivity|exact IH].
Qed.

Lemma keys_filtered_NoDup (rows : list DBProcessor.modlet_row) (uid : string) :
  NoDup (map DBProcessor.m_unique_id rows) ->
  NoDup (map DBProcessor.m_unique_id
           (filter (fun r => negb (String.eqb (DBProcessor.m_unique_id r) uid))
                   rows ++ [DBProcessor.ModletRow uid "" "" "" "" ""])).
Proof.
  intros Hnd. rewrite map_app. cbn [map DBProcessor.m_unique_id].
  apply NoDup_app.
  - induction rows as [|r rows IH]; cbn; [constructor|].
    inversion Hnd as [|? ? Hnotin Hrest]; subst.
    destruct (String.eqb (DBProcessor.m_unique_id r) uid); cbn; [now apply IH|].
    constructor; [|now apply IH].
    intros Hin. apply Hnotin. apply in_map_iff in Hin as [r' [Hk Hin]].
    apply filter_In in Hin as [Hin _]. apply in_map_iff. now exists r'.
  - repeat constructor. intros [].
  - intros k Hin [<-|[]]. apply in_map_iff in Hin as [r [Hk Hin]].
    apply filter_In in Hin as [_ Hneq]. rewrite Hk, String.eqb_refl in Hneq.
    discriminate.
Qed.

Section ModletsTable.
Context `{Base64}.

(** X5: the modlets table holds at most one row per identifier, and a
    descriptor is found again under the identifier returned when it was
    stored: the row carries the fields as given, rows under other
    identifiers are untouched, and [get_modlet_info] returns the five text
    fields whenever decoding leaves each of them as it is. *)
Theorem X5_modlet_stored_then_found :
  forall (d : DBProcessor.db) (name description author version website : string),
    NoDup (map DBProcessor.m_unique_id (DBProcessor.modlets d)) ->
    let d' := fst (DBProcessor.store_modlet_info d name description author
                     version website) in
    let uid := snd (DBProcessor.store_modlet_info d name description author
                      version website) in
    let row := DBProcessor.ModletRow uid name description author version website in
    uid = DBProcessor.generate_unique_id name version
    /\ NoDup (map DBProcessor.m_unique_id (DBProcessor.modlets d'))
    /\ find (fun r => String.eqb (DBProcessor.m_unique_id r) uid)
            (DBProcessor.modlets d') = Some row
    /\ (forall other : string,
          other <> uid ->
          find (fun r => String.eqb (DBProcessor.m_unique_id r) other)
               (DBProcessor.modlets d')
          = find (fun r => String.eqb (DBProcessor.m_unique_id r) other)
                 (DBProcessor.modlets d))
    /\ (Forall (fun s => DBProcessor._decode_data (DBProcessor.encoding d) s
                         = Py.Ok s)
               [name; description; author; version; website] ->
        DBProcessor.get_modlet_info d' uid = Py.Ok (Some row)).
Proof.
  intros d name description author version website Hnd d' uid row.
  unfold d', uid, row, DBProcessor.store_modlet_info.
  cbn [fst snd DBProcessor.modlets DBProcessor.encoding].
  set (id := DBProcessor.generate_unique_id name version).
  set (kept := filter _ (DBProcessor.modlets d)).
  assert (Hfind : find (fun r => String.eqb (DBProcessor.m_unique_id r) id)
                       (kept ++ [DBProcessor.ModletRow id name description
                                   author version website])
                  = Some (DBProcessor.ModletRow id name description author
                            version website)).
  { rewrite find_app_none by apply find_key_filtered.
    cbn [DBProcessor.m_unique_id]. now rewrite String.eqb_refl. }
  split; [reflexivity|]. split; [|split; [exact Hfind|split]].
  - pose proof (keys_filtered_NoDup (DBProcessor.modlets d) id Hnd) as Hk.
    rewrite map_app in *. exact Hk.
  - intros other Hne. unfold kept.
    rewrite <- (find_other_key_filtered (DBProcessor.modlets d) id other Hne).
    destruct (find _ (filter _ (DBProcessor.modlets d))) as [r|] eqn:E.
    + now apply find_app_some.
    + rewrite find_app_none by assumption. cbn [DBProcessor.m_unique_id].
      destruct (String.eqb_spec id other); [congruence|reflexivity].
  - intros Hdec. unfold DBProcessor.get_modlet_info.
    cbn [DBProcessor.modlets DBProcessor.encoding]. rewrite Hfind.
    cbn [DBProcessor.m_name DBProcessor.m_description DBProcessor.m_author
         DBProcessor.m_version DBProcessor.m_website DBProcessor.m_unique_id].
    repeat match goal with
           | Hf : Forall _ (_ :: _) |- _ =>
               let Hd := fresh "Hd" in
               inversion Hf as [|? ? Hd ?]; subst; clear Hf; rewrite Hd;
               cbn [Py.bind]
           end.
    reflexivity.
Qed.

End ModletsTable.

Lemma X5_modlet_witness :
  DBProcessor.get_modlet_info (H := Base64Ref.reference)
    (fst (DBProcessor.store_modlet_info (DBProcessor.empty "base64")
            "Alpha" "First modlet" "" "1.0" ""))
    (DBProcessor.generate_unique_id "Alpha" "1.0")
  = Py.Ok (Some (DBProcessor.ModletRow
                   (DBProcessor.generate_unique_id "Alpha" "1.0")
                   "Alpha" "First modlet" "" "1.0" "")).
Proof.
  apply (@X5_modlet_stored_then_found Base64Ref.reference
           (DBProcessor.empty "base64") "Alpha" "First modlet" "" "1.0" ""
           (NoDup_nil _)).
  repeat constructor.
Defined.

(** ** Round trips through the store *)

Lemma mapM_snoc {A B : Type} (f : A -> Py.result B) (l : list A) (x : A) :
  Py.mapM f (l ++ [x])
  = Py.bind (Py.mapM f l)
      (fun ys => Py.bind (f x) (fun y => Py.Ok (ys ++ [y])%list)).
Proof.
  induction l as [|a l IH]; cbn.
  - destruct (f x); reflexivity.
  - destruct (f a) as [b|e]; cbn; [|reflexivity].
    rewrite IH. destruct (Py.mapM f l) as [ys|e]; cbn; [|reflexivity].
    destruct (f x); reflexivity.
Qed.

Lemma dict_get_over_keys {V : Type} (f : string -> V) (keys : list string)
    (t : string) :
  In t keys ->
  XMLWriter.dict_get t (map (fun u => (u, f u)) keys) = Some (f t).
Proof.
  induction keys as [|k keys IH]; cbn; [intros []|].
  destruct (String.eqb_spec k t) as [->|Hne]; [reflexivity|].
  intros [Hk|Hin]; [contradiction|now apply IH].
Qed.

Section RoundTrips.
Context `{Base64}.

Lemma round_trips_plain (enc s : string) :
  String.eqb enc "base64" = false -> round_trips enc s.
Proof.
  intros Henc. unfold round_trips, DBProcessor._encode_data. rewrite Henc.
  now apply decode_plain.
Qed.

(** X6: an XML block read back from the store is the block that was
    stored, behind everything recorded before it: when the text survives
    encoding and decoding, [get_xml_data] after [store_xml_data] returns
    the earlier dictionary with the text added as the last entry of its
    path and tag. *)
Theorem X6_xml_block_stored_then_read :
  forall (d : DBProcessor.db) (mn uid fp sp tag content : string)
         (bs : list block),
    wf d ->
    recorded d = Py.Ok bs ->
    round_trips (DBProcessor.encoding d) content ->
    let d' := DBProcessor.store_xml_data d mn uid fp sp tag content in
    recorded d' = Py.Ok (bs ++ [(sp, tag, content)])%list
    /\ DBProcessor.get_xml_data d' "" "" ""
       = Py.Ok (DBProcessor.add_content (group bs) sp tag content)
    /\ (exists tags,
          XMLWriter.dict_get sp
            (DBProcessor.add_content (group bs) sp tag content) = Some tags
          /\ XMLWriter.dict_get tag tags
             = Some (contents_of sp tag bs ++ [content])%list)
    /\ wf d'.
Proof.
  intros d mn uid fp sp tag content bs Hwf Hrec Hrt d'.
  assert (Hrec' : recorded d' = Py.Ok (bs ++ [(sp, tag, content)])%list).
  { unfold recorded, d'. rewrite store_xml_appends by assumption.
    cbn [DBProcessor.encoding DBProcessor.store_xml_data].
    rewrite mapM_snoc. unfold recorded in Hrec. rewrite Hrec. cbn [Py.bind].
    cbn [DBProcessor.x_content DBProcessor.x_short_path DBProcessor.x_outer_tag].
    unfold round_trips in Hrt. rewrite Hrt. reflexivity. }
  split; [exact Hrec'|]. split; [|split].
  - rewrite get_xml_data_recorded, Hrec'. cbn [Py.bind]. now rewrite group_snoc.
  - change (DBProcessor.add_content (group bs) sp tag content)
      with (add_block (group bs) (sp, tag, content)).
    rewrite <- group_snoc, group_at_path, existsb_app. cbn [existsb].
    unfold at_path at 2. cbn [b_path fst]. rewrite String.eqb_refl, orb_true_r.
    eexists. split; [reflexivity|].
    unfold layout. rewrite dict_get_over_keys.
    + rewrite contents_of_snoc. unfold at_path_tag. cbn [b_path b_tag fst snd].
      now rewrite !String.eqb_refl.
    + rewrite tags_of_snoc. unfold at_path. cbn [b_path b_tag fst snd].
      rewrite String.eqb_refl.
      destruct (ModletWriter.in_list tag (tags_of sp bs)) eqn:E.
      * now apply in_list_In.
      * apply in_or_app. right. now left.
  - now apply wf_store_xml.
Qed.

(** X7: a localization row read back from the store is the row that was
    stored, as the last of the rows: when its values survive encoding and
    decoding, [get_localization_data] after [store_localization_data]
    returns the earlier rows followed by the dictionary that pairs the
    column names with the stored values. *)
Theorem X7_localization_row_stored_then_read :
  forall (d : DBProcessor.db) (items : list string)
         (rows : list DBProcessor.entry),
    wf d ->
    DBProcessor.get_localization_data d "" "" = Py.Ok rows ->
    Forall (round_trips (DBProcessor.encoding d)) items ->
    DBProcessor.get_localization_data
      (DBProcessor.store_localization_data d items) "" ""
    = Py.Ok (rows ++ [combine DBProcessor.loc_columns items])%list.
Proof.
  intros d items rows Hwf Hget Hrt.
  unfold DBProcessor.get_localization_data in *.
  cbn [DBProcessor.truthy String.eqb negb andb] in *.
  rewrite store_localization_appends by assumption.
  cbn [DBProcessor.encoding DBProcessor.store_localization_data].
  rewrite mapM_snoc, Hget. cbn [Py.bind DBProcessor.l_values].
  assert (Hdec : Py.mapM (DBProcessor._decode_data (DBProcessor.encoding d))
                   (map (DBProcessor._encode_data (DBProcessor.encoding d)) items)
                 = Py.Ok items).
  { induction Hrt as [|s items Hs _ IH]; [reflexivity|].
    cbn [map Py.mapM]. unfold round_trips in Hs. rewrite Hs. cbn [Py.bind].
    now rewrite IH. }
  now rewrite Hdec.
Qed.

End RoundTrips.

Lemma X6_xml_block_witness :
  DBProcessor.get_xml_data (H := Base64Ref.reference)
    (@DBProcessor.store_xml_data Base64Ref.reference windows_store "Gamma" "idC"
       "/mods/Gamma/Config/windows.xml" "windows.xml" "append" "<c1 />")
    "" "" ""
  = Py.Ok [("windows.xml",
            [("windows", ["<a1 />"; "<b1 />"]); ("append", ["<a2 />"; "<c1 />"])])].
Proof.
  apply (@X6_xml_block_stored_then_read Base64Ref.reference windows_store
           "Gamma" "idC" "/mods/Gamma/Config/windows.xml" "windows.xml" "append"
           "<c1 />"
           [("windows.xml", "windows", "<a1 />");
            ("windows.xml", "append", "<a2 />");
            ("windows.xml", "windows", "<b1 />")]).
  - unfold windows_store. repeat apply wf_store_xml. apply wf_empty.
  - reflexivity.
  - reflexivity.
Defined.

Lemma X7_localization_row_witness :
  DBProcessor.get_localization_data (H := Base64Ref.reference)
    (@DBProcessor.store_localization_data Base64Ref.reference
       (DBProcessor.empty "base64")
       (loc_items "Alpha" "id" "/mods/Alpha/Config/Localization.txt" "greeting"
          "Hello"))
    "" ""
  = Py.Ok [combine DBProcessor.loc_columns
             (loc_items "Alpha" "id" "/mods/Alpha/Config/Localization.txt"
                "greeting" "Hello")].
Proof.
  apply (@X7_localization_row_stored_then_read Base64Ref.reference
           (DBProcessor.empty "base64")
           (loc_items "Alpha" "id" "/mods/Alpha/Config/Localization.txt"
              "greeting" "Hello") []).
  - apply wf_empty.
  - reflexivity.
  - repeat constructor.
Defined.

(** ** From a parsed row to the emitted line *)

(** X8: which source field an emitted column shows.  For a data row of 20
    fields or more that went through the parser, the store and the writer,
    the columns Key, File and Type show the fields 0, 1 and 2, english
    shows field 5, and each column from german to spanish shows the field
    one place to its left in the source header, so that german shows the
    alternate text (field 6) and spanish shows tchinese (field 18); the
    columns UsedInMainMenu, NoTranslate and the alternate text are always
    empty, and the fields 3, 4 and 19 of the source are not emitted. *)
Theorem X8_emitted_columns_of_a_row :
  forall (fp mn uid sp : string) (row : list string),
    (20 <= List.length row)%nat ->
    let r := fun i => nth i row "" in
    let e := combine DBProcessor.loc_columns
               (LocalizationParser.store_args fp mn uid sp row) in
    map (ModletWriter.field e) Configuration.EXPECTED_HEADER
    = [r 0%nat; r 1%nat; r 2%nat; ""; ""; quoted (r 5%nat); "";
       quoted (r 6%nat); quoted (r 7%nat); quoted (r 8%nat); quoted (r 9%nat);
       quoted (r 10%nat); quoted (r 11%nat); quoted (r 12%nat);
       quoted (r 13%nat); quoted (r 14%nat); quoted (r 15%nat);
       quoted (r 16%nat); quoted (r 17%nat); quoted (r 18%nat)]
    /\ ModletWriter.line e
       = (Py.join "," (map (ModletWriter.field e) Configuration.EXPECTED_HEADER)
          ++ ET.chr 10)%string.
Proof.
  intros fp mn uid sp row Hlen r e. split; [|reflexivity].
  unfold r, e.
  do 20 (destruct row as [|? row]; [cbn in Hlen; lia|]).
  unfold Configuration.EXPECTED_HEADER. cbn [map].
  rewrite !field_cases. vm_compute. reflexivity.
Qed.

Lemma X8_emitted_columns_witness :
  map (ModletWriter.field
         (combine DBProcessor.loc_columns
            (LocalizationParser.store_args "f" "Alpha" "id" "s"
               ["greeting"; "UI"; "Menu"; "x"; "y"; "Hello"; "note"; "Hallo";
                ""; "Bonjour"; ""; ""; ""; ""; ""; ""; ""; ""; "nihao"; "Hola"])))
      Configuration.EXPECTED_HEADER
  = ["greeting"; "UI"; "Menu"; ""; ""; quoted "Hello"; ""; quoted "note";
     quoted "Hallo"; ""; quoted "Bonjour"; ""; ""; ""; ""; ""; ""; ""; "";
     quoted "nihao"].
Proof.
  apply (X8_emitted_columns_of_a_row "f" "Alpha" "id" "s"
           ["greeting"; "UI"; "Menu"; "x"; "y"; "Hello"; "note"; "Hallo";
            ""; "Bonjour"; ""; ""; ""; ""; ""; ""; ""; ""; "nihao"; "Hola"]).
  cbn. lia.
Defined.

(** ** What a parse adds to the store (parser_localization.parse) *)

Section ParseAdds.
Context `{Base64}.

Lemma step_store (fp mn uid sp : string) (d : DBProcessor.db)
    (log : list LocalizationParser.log_event) (n : nat) (row : list string) :
  fst (LocalizationParser.step fp mn uid sp (d, log) n row)
  = if accepted row
    then DBProcessor.store_localization_data d
           (LocalizationParser.store_args fp mn uid sp row)
    else d.
Proof.
  unfold LocalizationParser.step, accepted, is_data_row.
  destruct row as [|first more]; [reflexivity|].
  destruct (Py.startswith first "#"); [reflexivity|]. cbn [negb andb].
  destruct (Nat.ltb_spec (List.length (first :: more)) 20) as [Hlt|Hge].
  - apply Nat.leb_gt in Hlt. now rewrite Hlt.
  - apply Nat.leb_le in Hge. now rewrite Hge.
Qed.

(** X9: a parse adds to the store exactly the data rows of 20 fields or
    more, in file order, each with the next free id; the rows that were
    there stay in place, and rows that are blank, commented or too short
    neither add nor remove anything.  The other two tables are untouched. *)
Theorem X9_parse_adds_accepted_rows :
  forall (fp mn uid sp : string) (rows : list (list string))
         (d : DBProcessor.db) (log : list LocalizationParser.log_event)
         (n : nat),
    wf d ->
    let d' := fst (LocalizationParser.loop fp mn uid sp (d, log) n rows) in
    let stored := filter accepted rows in
    exists added : list DBProcessor.loc_row,
      DBProcessor.localization_data d'
      = (DBProcessor.localization_data d ++ added)%list
      /\ map DBProcessor.l_values added
         = map (fun row =>
                  map (DBProcessor._encode_data (DBProcessor.encoding d))
                      (LocalizationParser.store_args fp mn uid sp row))
               stored
      /\ map DBProcessor.l_id added
         = map (fun k => (DBProcessor.loc_seq d + N.of_nat k)%N)
               (seq 1 (List.length stored))
      /\ DBProcessor.xml_data d' = DBProcessor.xml_data d
      /\ DBProcessor.modlets d' = DBProcessor.modlets d
      /\ wf d'.
Proof.
  intros fp mn uid sp rows.
  induction rows as [|row rest IH]; intros d log n Hwf; cbv zeta.
  - exists []. cbn [LocalizationParser.loop fst filter map List.length seq].
    rewrite app_nil_r. auto 10.
  - cbn [LocalizationParser.loop filter].
    pose proof (step_store fp mn uid sp d log n row) as Hstep.
    destruct (LocalizationParser.step fp mn uid sp (d, log) n row)
      as [d1 log1]. cbn [fst] in Hstep. subst d1.
    destruct (accepted row).
    + pose proof (wf_store_localization d
                    (LocalizationParser.store_args fp mn uid sp row) Hwf) as Hwf1.
      destruct (IH _ log1 (S n) Hwf1) as [added [Hrows [Hvals [Hids [Hx [Hm Hw]]]]]].
      rewrite store_localization_appends in Hrows by assumption.
      cbn [DBProcessor.encoding DBProcessor.store_localization_data
           DBProcessor.loc_seq DBProcessor.xml_data DBProcessor.modlets] in *.
      exists (DBProcessor.LocRow (DBProcessor.loc_seq d + 1)
                (map (DBProcessor._encode_data (DBProcessor.encoding d))
                     (LocalizationParser.store_args fp mn uid sp row))
              :: added).
      refine (conj _ (conj _ (conj _ (conj _ (conj _ _))))).
      * rewrite Hrows, <- app_assoc. reflexivity.
      * cbn [map DBProcessor.l_values]. now rewrite Hvals.
      * cbn [map DBProcessor.l_id List.length seq]. f_equal.
        rewrite Hids, <- (seq_shift _ 1), map_map. apply map_ext. intros k.
        rewrite Nat2N.inj_succ. lia.
      * exact Hx.
      * exact Hm.
      * exact Hw.
    + apply (IH d log1 (S n) Hwf).
Qed.

End ParseAdds.

Lemma X9_parse_adds_witness :
  map DBProcessor.l_id
    (DBProcessor.localization_data
       (fst (LocalizationParser.loop (H := Base64Ref.reference) "f" "Alpha" "id"
               "s" (DBProcessor.empty "base64", []) 2
               [Examples.loc_fields "a" 20; []; Examples.loc_fields "b" 19;
                Examples.loc_fields "#c" 20; Examples.loc_fields "d" 22])))
  = [1%N; 2%N].
Proof.
  destruct (@X9_parse_adds_accepted_rows Base64Ref.reference "f" "Alpha" "id" "s"
              [Examples.loc_fields "a" 20; []; Examples.loc_fields "b" 19;
               Examples.loc_fields "#c" 20; Examples.loc_fields "d" 22]
              (DBProcessor.empty "base64") [] 2 (wf_empty "base64"))
    as [added [Hrows [_ [Hids _]]]].
  rewrite Hrows. cbn [DBProcessor.localization_data DBProcessor.empty app].
  rewrite Hids. reflexivity.
Defined.

(** ** The owner named in the block markers (db_processor.get_xml_metadata) *)

Lemma utf8_length_ge (s : string) :
  (String.length s <= List.length (Py.encode_utf8 s))%nat.
Proof.
  induction s as [|c r IH]; cbn [Py.encode_utf8 String.length]; [lia|].
  destruct (Z.of_N (Py.ord c) <? 128)%Z; cbn [List.length]; lia.
Qed.



Section OwnerLookup.
Context `{Base64}.



End OwnerLookup.


(** ** The identifier read from a descriptor (modlet_finder._parse_modinfo) *)

(** X11: when the descriptor's Name and Version elements, where present,
    carry a [value] attribute, the identifier [_parse_modinfo] computes, under
    which [find_modlets] records the modlet's blocks and rows, is the one
    under which [store_modlet_info] files the descriptor: the modlets table
    holds the descriptor's five fields under it. *)
Theorem X11_blocks_carry_descriptor_identifier
    (root : ET.Element) (d : DBProcessor.db)
    (Hname : ModletFinder.value_of root "Name" <> None)
    (Hversion : ModletFinder.value_of root "Version" <> None) :
  let mi := ModletFinder.modinfo_of_root root in
  let stored :=
    DBProcessor.store_modlet_info d (ModletFinder.mi_name mi)
      (ModletFinder.mi_description mi) (ModletFinder.mi_author mi)
      (ModletFinder.mi_version mi) (ModletFinder.mi_website mi) in
  snd stored = ModletFinder.mi_unique_id mi
  /\ find (fun r => String.eqb (DBProcessor.m_unique_id r)
                                (ModletFinder.mi_unique_id mi))
          (DBProcessor.modlets (fst stored))
     = Some (DBProcessor.ModletRow (ModletFinder.mi_unique_id mi)
               (ModletFinder.mi_name mi) (ModletFinder.mi_description mi)
               (ModletFinder.mi_author mi) (ModletFinder.mi_version mi)
               (ModletFinder.mi_website mi)).
Proof.
  intros mi stored.
  assert (Hid : DBProcessor.generate_unique_id (ModletFinder.mi_name mi)
                  (ModletFinder.mi_version mi)
                = ModletFinder.mi_unique_id mi).
  { unfold mi, ModletFinder.modinfo_of_root.
    cbn [ModletFinder.mi_name ModletFinder.mi_version ModletFinder.mi_unique_id].
    destruct (ModletFinder.value_of root "Name") as [n|]; [|congruence].
    destruct (ModletFinder.value_of root "Version") as [v|]; [|congruence].
    reflexivity. }
  unfold stored, DBProcessor.store_modlet_info.
  cbn [fst snd DBProcessor.modlets]. rewrite Hid. split; [reflexivity|].
  rewrite find_app_none by apply find_key_filtered.
  cbn [DBProcessor.m_unique_id]. now rewrite String.eqb_refl.
Qed.

Lemma X11_descriptor_witness :
  let mi := ModletFinder.modinfo_of_root Examples.modinfo_tree in
  ModletFinder.mi_name mi = "Alpha"
  /\ ModletFinder.mi_website mi = ""
  /\ snd (DBProcessor.store_modlet_info (DBProcessor.empty "base64")
            "Alpha" "" "" "1.0" "")
     = ModletFinder.mi_unique_id mi.
Proof.
  cbv zeta. split; [reflexivity|]. split; [reflexivity|].
  apply (X11_blocks_carry_descriptor_identifier Examples.modinfo_tree
           (DBProcessor.empty "base64")); cbn; discriminate.
Defined.

(** ** Merging two documents (parser_xml._merge_xml_content) *)

Lemma tags_of_shapes (kids : list ET.Element) :
  map ET.tag kids = map (fun s => fst (fst (fst s))) (map shape kids).
Proof. rewrite map_map. reflexivity. Qed.

Lemma merge_child_shape (kids : list ET.Element) (e : ET.Element) :
  map shape (XMLParser.merge_child kids e)
  = if ModletWriter.in_list (ET.tag e) (map ET.tag kids) then map shape kids
    else (map shape kids ++ [shape e])%list.
Proof.
  induction kids as [|k kids IH]; cbn; [reflexivity|].
  rewrite (String.eqb_sym (ET.tag e) (ET.tag k)).
  destruct (String.eqb (ET.tag k) (ET.tag e)); cbn; [reflexivity|].
  fold (ModletWriter.in_list (ET.tag e) (map ET.tag kids)). rewrite IH.
  now destruct (ModletWriter.in_list (ET.tag e) (map ET.tag kids)).
Qed.

Lemma merge_child_grandchildren (kids : list ET.Element) (e : ET.Element) :
  grandchildren (XMLParser.merge_child kids e)
  = grandchildren kids + List.length (ET.children e).
Proof.
  unfold grandchildren, list_sum.
  induction kids as [|k kids IH]; cbn [XMLParser.merge_child map fold_right].
  - lia.
  - destruct (String.eqb (ET.tag k) (ET.tag e)); cbn [map fold_right].
    + unfold ET.extend. cbn [ET.children]. rewrite length_app. lia.
    + rewrite IH. lia.
Qed.

Lemma merge_fold (news kids : list ET.Element) :
  exists added : list ET.Element,
    map shape (fold_left XMLParser.merge_child news kids)
    = (map shape kids ++ map shape added)%list
    /\ incl added news
    /\ (forall e, In e added -> ~ In (ET.tag e) (map ET.tag kids))
    /\ NoDup (map ET.tag added)
    /\ (forall e, In e news ->
          In (ET.tag e)
             (map ET.tag (fold_left XMLParser.merge_child news kids)))
    /\ grandchildren (fold_left XMLParser.merge_child news kids)
       = grandchildren kids + grandchildren news.
Proof.
  revert kids. induction news as [|e news IH]; intros kids.
  - exists []. cbn [fold_left map]. rewrite app_nil_r.
    split; [reflexivity|]. split; [apply incl_refl|].
    split; [intros e []|]. split; [constructor|]. split; [intros e []|].
    unfold grandchildren at 3. cbn. lia.
  - cbn [fold_left].
    destruct (IH (XMLParser.merge_child kids e))
      as [added [Hshape [Hincl [Hfresh [Hnd [Hin Hg]]]]]].
    pose proof (merge_child_shape kids e) as Hstep.
    assert (Htags : forall t,
               In t (map ET.tag (XMLParser.merge_child kids e)) ->
               In t (map ET.tag
                       (fold_left XMLParser.merge_child news
                          (XMLParser.merge_child kids e)))).
    { intros t Ht. rewrite tags_of_shapes in *. rewrite Hshape, map_app.
      apply in_or_app. now left. }
    assert (Hgc : grandchildren
                    (fold_left XMLParser.merge_child news
                       (XMLParser.merge_child kids e))
                  = grandchildren kids + grandchildren (e :: news)).
    { rewrite Hg, merge_child_grandchildren. unfold grandchildren, list_sum.
      cbn [map fold_right]. lia. }
    destruct (ModletWriter.in_list (ET.tag e) (map ET.tag kids)) eqn:E.
    + assert (Hsame : map ET.tag (XMLParser.merge_child kids e)
                      = map ET.tag kids)
        by (now rewrite !tags_of_shapes, Hstep).
      exists added. rewrite Hshape, Hstep.
      split; [reflexivity|]. split; [now apply incl_tl|].
      split; [intros x Hx; rewrite <- Hsame; now apply Hfresh|].
      split; [assumption|]. split; [|assumption].
      intros x [<-|Hx]; [|now apply Hin].
      apply Htags. rewrite Hsame. now apply in_list_In.
    + assert (Hmore : map ET.tag (XMLParser.merge_child kids e)
                      = (map ET.tag kids ++ [ET.tag e])%list).
      { rewrite !tags_of_shapes, Hstep, map_app. reflexivity. }
      exists (e :: added). rewrite Hshape, Hstep, <- app_assoc.
      split; [reflexivity|].
      split; [intros x [<-|Hx]; [now left|right; now apply Hincl]|].
      split.
      { intros x [<-|Hx]; [now apply in_list_false|].
        intros Hk. apply (Hfresh x Hx). rewrite Hmore.
        apply in_or_app. now left. }
      split.
      { cbn [map]. constructor; [|assumption].
        intros Hk. apply in_map_iff in Hk as [x [Hx Hxin]].
        apply (Hfresh x Hxin). rewrite Hmore, Hx.
        apply in_or_app. right. now left. }
      split; [|assumption].
      intros x [<-|Hx]; [|now apply Hin].
      apply Htags. rewrite Hmore. apply in_or_app. right. now left.
Qed.

(** X12: merging a new document into an existing one keeps the existing
    root and every existing child in place, with its tag, attributes, text
    and tail; behind them come children of the new root, one for each tag
    the existing root did not have; every tag of the new root is then
    present, and no grandchild is lost or duplicated. *)
Theorem X12_merge_keeps_existing_children (existing_root new_root : ET.Element) :
  let merged := XMLParser.merge_roots existing_root new_root in
  shape merged = shape existing_root
  /\ (exists added : list ET.Element,
        map shape (ET.children merged)
        = (map shape (ET.children existing_root) ++ map shape added)%list
        /\ incl added (ET.children new_root)
        /\ (forall e, In e added ->
              ~ In (ET.tag e) (map ET.tag (ET.children existing_root)))
        /\ NoDup (map ET.tag added))
  /\ (forall e, In e (ET.children new_root) ->
        In (ET.tag e) (map ET.tag (ET.children merged)))
  /\ grandchildren (ET.children merged)
     = grandchildren (ET.children existing_root)
       + grandchildren (ET.children new_root).
Proof.
  intros merged. unfold merged, XMLParser.merge_roots. cbn [ET.children].
  destruct (merge_fold (ET.children new_root) (ET.children existing_root))
    as [added [Hshape [Hincl [Hfresh [Hnd [Hin Hg]]]]]].
  split; [reflexivity|]. split; [|split; assumption].
  exists added. auto.
Qed.

(** ** Merging localization texts (parser_localization.merge_localization_data) *)

Lemma partition_comma_spec (line : string) :
  Py.contains "," line = true ->
  line = (fst (LocalizationParser.partition_comma line) ++ ","
          ++ snd (LocalizationParser.partition_comma line))%string
  /\ Py.contains "," (fst (LocalizationParser.partition_comma line)) = false.
Proof.
  induction line as [|c r IH]; [discriminate|].
  rewrite contains_char_cons. cbn [LocalizationParser.partition_comma].
  rewrite (Ascii.eqb_sym "," c).
  destruct (Ascii.eqb c ",") eqn:E.
  - intros _. apply Ascii.eqb_eq in E. subst c. split; reflexivity.
  - cbn [orb]. intros Hc. destruct (IH Hc) as [Hline Hkey].
    destruct (LocalizationParser.partition_comma r) as [key value].
    cbn [fst snd] in *. split.
    + cbn. f_equal. exact Hline.
    + rewrite contains_char_cons, (Ascii.eqb_sym "," c), E. exact Hkey.
Qed.

Lemma fold_left_flat_map {A B C : Type} (f : A -> C -> A) (g : B -> list C)
    (l : list B) (a : A) :
  fold_left (fun acc b => fold_left f (g b) acc) l a
  = fold_left f (flat_map g l) a.
Proof.
  revert a. induction l as [|b l IH]; intros a; cbn; [reflexivity|].
  now rewrite fold_left_app, IH.
Qed.

Lemma merge_line_entry (merged : list (string * string)) (line : string) :
  LocalizationParser.merge_line merged line
  = match entry_of line with
    | Some kv => DBProcessor.append_at (fst kv) (fun _ => snd kv) merged
    | None => merged
    end.
Proof.
  unfold LocalizationParser.merge_line, entry_of.
  destruct (Py.contains "," line); [|reflexivity].
  now destruct (LocalizationParser.partition_comma line).
Qed.

Lemma merge_lines_entries (lines : list string) (acc : list (string * string)) :
  fold_left LocalizationParser.merge_line lines acc
  = fold_left (fun m kv => DBProcessor.append_at (fst kv) (fun _ => snd kv) m)
              (flat_map (fun line => match entry_of line with
                                     | Some kv => [kv]
                                     | None => []
                                     end) lines)
              acc.
Proof.
  revert acc.
  induction lines as [|line lines IH]; intros acc; cbn [fold_left flat_map];
    [reflexivity|].
  rewrite fold_left_app, IH, merge_line_entry.
  destruct (entry_of line); reflexivity.
Qed.

Lemma merged_dict_entries (localization_data : list string) :
  LocalizationParser.merged_dict localization_data
  = fold_left (fun m kv => DBProcessor.append_at (fst kv) (fun _ => snd kv) m)
              (entries_of localization_data) [].
Proof.
  unfold LocalizationParser.merged_dict, entries_of.
  rewrite (fold_left_flat_map LocalizationParser.merge_line).
  apply merge_lines_entries.
Qed.

Lemma set_entries_spec (entries : list (string * string)) :
  let merged :=
    fold_left (fun m kv => DBProcessor.append_at (fst kv) (fun _ => snd kv) m)
              entries [] in
  map fst merged = first_seen (map fst entries)
  /\ forall k, XMLWriter.dict_get k merged = last_value k entries.
Proof.
  induction entries as [|[k0 v0] entries [IHk IHv]] using rev_ind.
  - split; [reflexivity|]. intros k. reflexivity.
  - cbv zeta in *. rewrite fold_left_app. cbn [fold_left fst snd]. split.
    + rewrite keys_append_at, IHk, map_app. cbn [map fst].
      now rewrite first_seen_snoc.
    + intros k. unfold last_value. rewrite rev_app_distr.
      cbn [rev app find fst snd].
      destruct (String.eqb_spec k0 k) as [->|Hne].
      * now rewrite dict_get_append_at_same.
      * rewrite dict_get_append_at_other by congruence. apply IHv.
Qed.

(** X16: in the merged localization text every key appears once, the keys
    follow each other in the order of their first appearance in the texts,
    and the value of a key is the one of its last line: a later text
    overrides an earlier one.  A line counts when it holds a comma; its key
    is what stands before the first comma, its value what stands behind it,
    both stripped. *)
Theorem X16_merged_localization_last_wins (localization_data : list string) :
  let merged := LocalizationParser.merged_dict localization_data in
  LocalizationParser.merge_localization_data localization_data
  = Py.join (ET.chr 10) (map (fun kv => (fst kv ++ "," ++ snd kv)%string) merged)
  /\ map fst merged = first_seen (map fst (entries_of localization_data))
  /\ NoDup (map fst merged)
  /\ (forall k, XMLWriter.dict_get k merged
                = last_value k (entries_of localization_data))
  /\ (forall line key value,
        entry_of line = Some (key, value) ->
        exists before behind,
          line = (before ++ "," ++ behind)%string
          /\ Py.contains "," before = false
          /\ key = Py.strip before /\ value = Py.strip behind).
Proof.
  intros merged. unfold merged. rewrite merged_dict_entries.
  destruct (set_entries_spec (entries_of localization_data)) as [Hk Hv].
  cbv zeta in Hk, Hv.
  split; [unfold LocalizationParser.merge_localization_data;
          now rewrite merged_dict_entries|].
  split; [exact Hk|]. split; [rewrite Hk; apply first_seen_NoDup|].
  split; [exact Hv|].
  intros line key value. unfold entry_of.
  destruct (Py.contains "," line) eqn:Hc; [|discriminate].
  destruct (partition_comma_spec line Hc) as [Hline Hfree].
  destruct (LocalizationParser.partition_comma line) as [before behind].
  intros [= <- <-]. exists before, behind. auto.
Qed.

Example merge_localization_two_texts :
  LocalizationParser.merge_localization_data
    ["Key,english" ++ ET.chr 10 ++ "greeting, Hello" ++ ET.chr 10 ++ "bye,Bye";
     "no comma here" ++ ET.chr 10 ++ "greeting,Hi, there"]
  = "Key,english" ++ ET.chr 10 ++ "greeting,Hi, there" ++ ET.chr 10 ++ "bye,Bye".
Proof. reflexivity. Qed.

(** ** Shortened texts (utilities.shorten_text) *)










(** ** The de-indent pass (modlet_writer.post_process_xml_files) *)

Lemma concat_cons (x : string) (xs : list string) :
  String.concat "" (x :: xs) = (x ++ String.concat "" xs)%string.
Proof.
  destruct xs as [|y ys]; cbn [String.concat]; [|reflexivity].
  induction x as [|c x IH]; cbn; [reflexivity|now rewrite <- IH].
Qed.

Lemma concat_readlines (s : string) :
  String.concat "" (ModletWriter.readlines s) = s.
Proof.
  induction s as [|c r IH]; [reflexivity|].
  cbn [ModletWriter.readlines].
  destruct (Ascii.eqb c (ascii_of_N 10)).
  - rewrite concat_cons, IH. reflexivity.
  - destruct (ModletWriter.readlines r) as [|l ls].
    + cbn in IH. subst r. reflexivity.
    + rewrite concat_cons in *. cbn [String.append]. now rewrite IH.
Qed.

Lemma substring_all (s : string) :
  String.substring 0 (String.length s) s = s.
Proof. induction s as [|c r IH]; cbn; [reflexivity|now rewrite IH]. Qed.

Lemma drop2_two_blanks (line : string) :
  Py.startswith line "  " = true ->
  line = ("  " ++ ModletWriter.drop2 line)%string.
Proof.
  destruct line as [|a [|b r]]; cbn [Py.startswith]; try discriminate.
  - rewrite andb_false_r. discriminate.
  - intros Hs. apply andb_prop in Hs as [Ha Hs].
    apply andb_prop in Hs as [Hb _].
    apply Ascii.eqb_eq in Ha, Hb. subst a b.
    unfold ModletWriter.drop2. cbn [String.length Nat.sub String.substring].
    rewrite Nat.sub_0_r, substring_all. reflexivity.
Qed.

Lemma process_lines_deindented (in_config : bool) (lines : list string) :
  Forall2 deindented lines (ModletWriter.process_lines in_config lines).
Proof.
  revert in_config.
  induction lines as [|line lines IH]; intros in_config;
    cbn [ModletWriter.process_lines]; [constructor|].
  destruct (Py.contains "<config>" line) eqn:Hopen;
    [constructor; [now left|apply IH]|].
  destruct (Py.contains "</config>" line) eqn:Hclose;
    [constructor; [now left|apply IH]|].
  destruct in_config; [|constructor; [now left|apply IH]].
  destruct (Py.startswith line "  ") eqn:Hs;
    [|constructor; [now left|apply IH]].
  constructor; [|apply IH].
  right. split; [now apply drop2_two_blanks|]. split; assumption.
Qed.

Lemma process_lines_outside (lines : list string) :
  Forall (fun line => Py.contains "<config>" line = false) lines ->
  ModletWriter.process_lines false lines = lines.
Proof.
  induction 1 as [|line lines Hline _ IH]; cbn [ModletWriter.process_lines];
    [reflexivity|].
  rewrite Hline, IH. now destruct (Py.contains "</config>" line).
Qed.

(** X14: the de-indent pass works line by line and writes back as many lines
    as it read; each line is written unchanged or without its two leading
    blanks, and it loses them only if it holds neither [<config>] nor
    [</config>].  Nothing is lost in cutting the text into lines, so a file
    in which no line holds [<config>] is written back as it was read. *)
Theorem X14_deindent_line_by_line (text : string) :
  let lines := ModletWriter.readlines (ModletWriter.read_text text) in
  let written := ModletWriter.process_lines false lines in
  ModletWriter.post_process_text text = String.concat "" written
  /\ String.concat "" lines = ModletWriter.read_text text
  /\ List.length written = List.length lines
  /\ Forall2 deindented lines written
  /\ (Forall (fun line => Py.contains "<config>" line = false) lines ->
      ModletWriter.post_process_text text = ModletWriter.read_text text).
Proof.
  intros lines written.
  pose proof (process_lines_deindented false lines) as Hall.
  split; [reflexivity|]. split; [apply concat_readlines|].
  split; [symmetry; exact (Forall2_length Hall)|]. split; [exact Hall|].
  intros Hout. unfold ModletWriter.post_process_text. fold lines.
  rewrite (process_lines_outside lines Hout). apply concat_readlines.
Qed.

Example post_process_written_file :
  ModletWriter.post_process_text
    ("  <config>" ++ ET.chr 10 ++ "    <items>" ++ ET.chr 10
     ++ "      <ironSword/>" ++ ET.chr 10 ++ "    </items>" ++ ET.chr 10
     ++ "  </config>")
  = "  <config>" ++ ET.chr 10 ++ "  <items>" ++ ET.chr 10
    ++ "    <ironSword/>" ++ ET.chr 10 ++ "  </items>" ++ ET.chr 10
    ++ "  </config>".
Proof. reflexivity. Qed.

(** ** The writer's totals (xml_writer.write, _update_file_size) *)

Lemma dict_get_set_same {V : Type} (k : string) (v : V) (l : list (string * V)) :
  XMLWriter.dict_get k (XMLWriter.dict_set k v l) = Some v.
Proof.
  induction l as [|[k' v'] l IH]; cbn.
  - now rewrite String.eqb_refl.
  - destruct (String.eqb k' k) eqn:E; cbn; rewrite E; [reflexivity|exact IH].
Qed.

Lemma dict_get_set_other {V : Type} (k k0 : string) (v : V)
    (l : list (string * V)) :
  k0 <> k ->
  XMLWriter.dict_get k0 (XMLWriter.dict_set k v l) = XMLWriter.dict_get k0 l.
Proof.
  intros Hne. induction l as [|[k' v'] l IH]; cbn.
  - destruct (String.eqb_spec k k0); [congruence|reflexivity].
  - destruct (String.eqb_spec k' k) as [->|Hk]; cbn.
    + destruct (String.eqb_spec k k0); [congruence|reflexivity].
    + destruct (String.eqb k' k0); [reflexivity|exact IH].
Qed.

Lemma keys_dict_set {V : Type} (k : string) (v : V) (l : list (string * V)) :
  map fst (XMLWriter.dict_set k v l)
  = if ModletWriter.in_list k (map fst l) then map fst l
    else (map fst l ++ [k])%list.
Proof.
  induction l as [|[k' v'] l IH]; cbn; [reflexivity|].
  rewrite (String.eqb_sym k k').
  destruct (String.eqb k' k); cbn; [reflexivity|].
  fold (ModletWriter.in_list k (map fst l)). rewrite IH.
  now destruct (ModletWriter.in_list k (map fst l)).
Qed.

Lemma sum_dict_set_le (k : string) (v : nat) (l : list (string * nat)) :
  list_sum (map snd (XMLWriter.dict_set k v l)) <= list_sum (map snd l) + v.
Proof.
  unfold list_sum.
  induction l as [|[k' v'] l IH]; cbn [XMLWriter.dict_set map fold_right snd];
    [lia|].
  destruct (String.eqb k' k); cbn [map fold_right snd]; lia.
Qed.

Lemma sum_dict_set_fresh (k : string) (v : nat) (l : list (string * nat)) :
  ~ In k (map fst l) ->
  list_sum (map snd (XMLWriter.dict_set k v l)) = list_sum (map snd l) + v.
Proof.
  unfold list_sum.
  induction l as [|[k' v'] l IH]; cbn [XMLWriter.dict_set map fold_right fst snd];
    [lia|].
  intros Hk. destruct (String.eqb_spec k' k) as [->|Hne].
  - exfalso. apply Hk. now left.
  - cbn [map fold_right snd]. rewrite IH; [lia|].
    intros Hin. apply Hk. now right.
Qed.

Lemma utf8_length_ascii (s : string) :
  Py.all_ascii s = true -> List.length (Py.encode_utf8 s) = String.length s.
Proof.
  induction s as [|c r IH]; cbn [Py.all_ascii Py.encode_utf8 String.length];
    [reflexivity|].
  intros Hs. apply andb_prop in Hs as [Hc Hr].
  apply N.ltb_lt in Hc.
  destruct (Z.ltb_spec (Z.of_N (Py.ord c)) 128); [|lia].
  cbn [List.length]. now rewrite IH.
Qed.

Section WriterTotals.
Context `{MiniDomLib}.

Lemma write_all_snoc (files : list (string * string)) (f : string * string)
    (st : XMLWriter.state) (disk : list (string * string)) :
  write_all (files ++ [f]) st disk
  = XMLWriter.write (fst (write_all files st disk)) (snd (write_all files st disk))
      (fst f) (snd f).
Proof. unfold write_all. now rewrite fold_left_app. Qed.

(** X15: after any sequence of writes that starts with a fresh writer,
    [total_size] is the sum of the byte sizes of all the texts written and
    [original_total_size] the sum of their lengths in characters, so the
    first is never below the second; the sizes kept per file add up to at
    most [total_size], and to exactly [total_size] when no path was written
    twice; when moreover every written text is ASCII, the two totals the
    final check compares are equal.  A path written twice is listed once and
    the disk holds its last text. *)
Theorem X15_writer_totals (files disk0 : list (string * string)) :
  let st := fst (write_all files XMLWriter.init disk0) in
  let disk := snd (write_all files XMLWriter.init disk0) in
  let written f := XMLWriter.pretty_print (snd f) in
  XMLWriter.total_size st
  = list_sum (map (fun f => List.length (Py.encode_utf8 (written f))) files)
  /\ XMLWriter.original_total_size st
     = list_sum (map (fun f => String.length (written f)) files)
  /\ XMLWriter.original_total_size st <= XMLWriter.total_size st
  /\ XMLWriter.total_written_size st <= XMLWriter.total_size st
  /\ map fst (XMLWriter.written_files st) = first_seen (map fst files)
  /\ (forall path,
        XMLWriter.dict_get path disk
        = match last_value path files with
          | Some content => Some (XMLWriter.pretty_print content)
          | None => XMLWriter.dict_get path disk0
          end)
  /\ (NoDup (map fst files) ->
      XMLWriter.total_written_size st = XMLWriter.total_size st)
  /\ (NoDup (map fst files) ->
      Forall (fun f => Py.all_ascii (written f) = true) files ->
      XMLWriter.total_written_size st = XMLWriter.original_total_size st).
Proof.
  cbv zeta.
  induction files as [|[path content] files IH] using rev_ind.
  - cbn. repeat split; auto.
  - destruct IH as [Htotal [Horig [Hle [Hsum [Hkeys [Hdisk [Hnd Hascii]]]]]]].
    rewrite write_all_snoc.
    destruct (write_all files XMLWriter.init disk0) as [st disk].
    cbn [fst snd] in *.
    unfold XMLWriter.write, XMLWriter._update_char_count,
      XMLWriter._update_file_size, XMLWriter.total_written_size in *.
    cbn [fst snd XMLWriter.total_size XMLWriter.original_total_size
         XMLWriter.written_files].
    rewrite !map_app, !list_sum_app. cbn [map list_sum fold_right snd fst].
    pose proof (utf8_length_ge (XMLWriter.pretty_print content)) as Hge.
    pose proof (sum_dict_set_le path
                  (List.length (Py.encode_utf8 (XMLWriter.pretty_print content)))
                  (XMLWriter.written_files st)) as Hset.
    split; [lia|]. split; [lia|]. split; [lia|]. split; [lia|].
    split; [now rewrite keys_dict_set, Hkeys, first_seen_snoc|].
    split.
    { intros p. unfold last_value. rewrite rev_app_distr.
      cbn [rev app find fst snd].
      destruct (String.eqb_spec path p) as [->|Hne].
      - apply dict_get_set_same.
      - rewrite dict_get_set_other by congruence. apply Hdisk. }
    assert (Hfresh : NoDup (map fst files ++ [path]) ->
                     NoDup (map fst files)
                     /\ ~ In path (map fst (XMLWriter.written_files st))).
    { intros Hn. apply NoDup_app_remove_r in Hn as Hl. split; [exact Hl|].
      rewrite Hkeys, first_seen_In. intros Hin.
      apply NoDup_remove_2 in Hn. rewrite app_nil_r in Hn. contradiction. }
    split.
    + intros Hn. destruct (Hfresh Hn) as [Hl Hnew].
      rewrite sum_dict_set_fresh by assumption. specialize (Hnd Hl). lia.
    + intros Hn Hall. destruct (Hfresh Hn) as [Hl Hnew].
      apply Forall_app in Hall as [Hall Hlast].
      inversion Hlast as [|? ? Hc _]; subst. cbn [snd] in Hc.
      rewrite sum_dict_set_fresh by assumption.
      rewrite (utf8_length_ascii _ Hc). specialize (Hascii Hl Hall). lia.
Qed.

End WriterTotals.

(** ** The block counts of the report (modlet_writer.display_statistics) *)

Lemma dict_get_set_kept {V : Type} (k p : string) (v : V)
    (l : list (string * V)) :
  XMLWriter.dict_get p l <> None ->
  XMLWriter.dict_get p (XMLWriter.dict_set k v l) <> None.
Proof.
  intros Hp. destruct (String.eqb_spec p k) as [->|Hne].
  - rewrite dict_get_set_same. discriminate.
  - now rewrite dict_get_set_other.
Qed.

Lemma file_blocks_length (content : DBProcessor.tag_dict) :
  List.length (ModletWriter.file_blocks content)
  = list_sum (map (fun tc => List.length (snd tc)) content).
Proof.
  unfold ModletWriter.file_blocks, list_sum.
  induction content as [|tc content IH]; cbn [flat_map map fold_right];
    [reflexivity|].
  now rewrite length_app, length_map, IH.
Qed.

Section Report.
Context `{Base64} `{MiniDomLib}.

Lemma write_each_spec (d : DBProcessor.db) (out : string)
    (files : DBProcessor.xml_dict) :
  forall st st' : ModletWriter.state,
    ModletWriter.write_each d out files st = Py.Ok st' ->
    (forall p, XMLWriter.dict_get p (ModletWriter.disk st) <> None ->
               XMLWriter.dict_get p (ModletWriter.disk st') <> None)
    /\ (forall sp content,
          In (sp, content) files ->
          XMLWriter.dict_get (Py.path_join (Py.path_join out "Config") sp)
                             (ModletWriter.disk st') <> None)
    /\ (forall sp, ~ In sp (map fst files) ->
          XMLWriter.dict_get sp (ModletWriter.file_xml_block_counts st')
          = XMLWriter.dict_get sp (ModletWriter.file_xml_block_counts st))
    /\ (NoDup (map fst files) ->
        forall sp content,
          In (sp, content) files ->
          XMLWriter.dict_get sp (ModletWriter.file_xml_block_counts st')
          = Some (List.length (ModletWriter.file_blocks content))).
Proof.
  induction files as [|[sp0 content0] files IH]; intros st st'.
  - cbn [ModletWriter.write_each]. intros [= <-].
    split; [auto|]. split; [intros ? ? []|]. split; [auto|].
    intros _ ? ? [].
  - cbn [ModletWriter.write_each].
    destruct (ModletWriter.combined_content d sp0 content0) as [combined|e];
      cbn [Py.bind]; [|discriminate].
    unfold XMLWriter.write.
    set (path0 := Py.path_join (Py.path_join out "Config") sp0).
    set (text0 := XMLWriter.pretty_print (ModletWriter.full_content combined)).
    intros Hrest. apply IH in Hrest.
    cbn [ModletWriter.disk ModletWriter.file_xml_block_counts] in Hrest.
    destruct Hrest as [Hkept [Hhere [Hother Hcount]]].
    split; [|split; [|split]].
    + intros p Hp. apply Hkept. now apply dict_get_set_kept.
    + intros sp content [[= <- <-]|Hin]; [|now apply (Hhere sp content)].
      apply Hkept. fold path0. rewrite dict_get_set_same. discriminate.
    + intros sp Hsp. cbn [map fst] in Hsp.
      rewrite Hother by (intros Hin; apply Hsp; now right).
      apply dict_get_set_other. intros ->. apply Hsp. now left.
    + intros Hnd sp content Hin. cbn [map fst] in Hnd.
      inversion Hnd as [|? ? Hnotin Hnd']; subst.
      destruct Hin as [[= <- <-]|Hin]; [|now apply Hcount].
      rewrite Hother by assumption. apply dict_get_set_same.
Qed.

(** X17: once [_write_xml_files] has returned, the report has one row for
    every logical short path of the store, in the order of the store, and
    in every row the number of blocks counted while writing is the number of
    blocks the store holds for the path; this stays so whatever is done to
    the texts of the written files in between, as long as the files
    exist. *)
Theorem X17_report_block_counts_agree
    (d : DBProcessor.db) (out : string) (st st' later : ModletWriter.state)
    (verdict : bool * XMLWriter.log_event)
    (Hwritten : ModletWriter._write_xml_files d out st = Py.Ok (st', verdict))
    (Hcounts : ModletWriter.file_xml_block_counts later
               = ModletWriter.file_xml_block_counts st')
    (Hdisk : forall p, XMLWriter.dict_get p (ModletWriter.disk st') <> None ->
                       XMLWriter.dict_get p (ModletWriter.disk later) <> None) :
  exists (xml_data : DBProcessor.xml_dict) (rows : list ModletWriter.stat),
    DBProcessor.get_xml_data d "" "" "" = Py.Ok xml_data
    /\ ModletWriter.display_statistics d out later = Py.Ok rows
    /\ map ModletWriter.stat_file rows = map fst xml_data
    /\ Forall (fun r => ModletWriter.file_xml_block_count r
                        = Some (ModletWriter.db_xml_block_count r)) rows.
Proof.
  unfold ModletWriter._write_xml_files in Hwritten.
  unfold ModletWriter.display_statistics.
  pose proof (get_xml_data_recorded d) as Hrec.
  destruct (DBProcessor.get_xml_data d "" "" "") as [xml_data|e] eqn:Hget;
    cbn [Py.bind] in *; [|discriminate].
  assert (Hnd : NoDup (map fst xml_data)).
  { destruct (recorded d) as [bs|e]; cbn [Py.bind] in Hrec; [|discriminate].
    injection Hrec as ->. rewrite group_paths. apply first_seen_NoDup. }
  destruct (ModletWriter.write_each d out xml_data st) as [st1|e] eqn:Heach;
    cbn [Py.bind] in Hwritten; [|discriminate].
  destruct (XMLWriter.check_total_filesize (ModletWriter.writer st1))
    as [v|e]; cbn [Py.bind] in Hwritten; [|discriminate].
  injection Hwritten as -> _.
  destruct (write_each_spec d out xml_data st st' Heach)
    as [_ [Hhere [_ Hcount]]].
  specialize (Hcount Hnd).
  exists xml_data. eexists. split; [reflexivity|]. split; [reflexivity|].
  match goal with
  | |- map _ (flat_map ?F _) = _ /\ _ => set (row := F)
  end.
  assert (Hpart : forall part : DBProcessor.xml_dict,
             incl part xml_data ->
             map ModletWriter.stat_file (flat_map row part) = map fst part
             /\ Forall (fun r => ModletWriter.file_xml_block_count r
                                 = Some (ModletWriter.db_xml_block_count r))
                       (flat_map row part)).
  { induction part as [|[sp content] part IH]; intros Hall;
      cbn [flat_map map]; [split; constructor|].
    assert (Hin : In (sp, content) xml_data) by (apply Hall; now left).
    destruct IH as [Hfiles Hrows]; [intros x Hx; apply Hall; now right|].
    unfold row at 1 3.
    destruct (XMLWriter.dict_get (Py.path_join (Py.path_join out "Config") sp)
                (ModletWriter.disk later)) as [text|] eqn:Htext;
      [|exfalso; apply (Hdisk _ (Hhere sp content Hin)); exact Htext].
    cbn [app map ModletWriter.stat_file fst]. split; [now rewrite Hfiles|].
    constructor; [|exact Hrows].
    cbn [ModletWriter.file_xml_block_count ModletWriter.db_xml_block_count].
    rewrite Hcounts, (Hcount sp content Hin). f_equal.
    apply file_blocks_length. }
  apply Hpart, incl_refl.
Qed.

End Report.

Lemma X17_report_witness :
  exists (xml_data : DBProcessor.xml_dict) (rows : list ModletWriter.stat),
    DBProcessor.get_xml_data (H := Base64Ref.reference) windows_store "" "" ""
    = Py.Ok xml_data
    /\ ModletWriter.display_statistics (H := Base64Ref.reference)
         windows_store "out" windows_written
       = Py.Ok rows
    /\ map ModletWriter.stat_file rows = map fst xml_data
    /\ Forall (fun r => ModletWriter.file_xml_block_count r
                        = Some (ModletWriter.db_xml_block_count r)) rows.
Proof.
  apply (X17_report_block_counts_agree (H := Base64Ref.reference)
           (H0 := Examples.minidom) windows_store "out"
           (ModletWriter.State XMLWriter.init [] []) windows_written
           windows_written
           (true, XMLWriter.WithinTolerance (0 # 237)%Q)).
  - vm_compute. reflexivity.
  - reflexivity.
  - intros p Hp. exact Hp.
Defined.

(** ** The combined descriptor (modlet_writer._write_modinfo_xml) *)

Lemma startswith_empty (s : string) : Py.startswith s "" = true.
Proof. now destruct s. Qed.

Lemma replace_blank_spec (s : string) :
  Py.contains " " (Py.replace s " " "_") = false
  /\ String.length (Py.replace s " " "_") = String.length s.
Proof.
  unfold Py.replace.
  induction s as [|c r [IHc IHl]]; [split; reflexivity|].
  cbn [Py.replace_from Py.startswith String.length Nat.sub].
  rewrite startswith_empty, andb_true_r.
  destruct (Ascii.eqb " " c) eqn:E.
  - change ("_" ++ Py.replace_from " " "_" 0 r)%string
      with (String "_" (Py.replace_from " " "_" 0 r)).
    rewrite contains_char_cons, IHc. cbn [String.length]. now rewrite IHl.
  - rewrite contains_char_cons, E, IHc. cbn [String.length]. now rewrite IHl.
Qed.

Lemma attr_value_other_keys (modlet_info : list (string * string)) (k : string) :
  k <> "Name" -> k <> "Website" ->
  match find (fun child => String.eqb (ET.tag child) k)
             (map (fun kv => ModletWriter.value_elem (fst kv) (snd kv))
                  (filter (fun kv => negb (ModletWriter.in_list (fst kv)
                                             ["Name"; "Website"]))
                          modlet_info)) with
  | Some child => ET.get "value" child
  | None => None
  end = XMLWriter.dict_get k modlet_info.
Proof.
  intros Hn Hw.
  induction modlet_info as [|[k' v'] l IH]; [reflexivity|].
  cbn [filter fst XMLWriter.dict_get].
  destruct (String.eqb_spec k' k) as [->|Hne].
  - assert (Hkeep : ModletWriter.in_list k ["Name"; "Website"] = false).
    { apply in_list_false. intros [<-|[<-|[]]]; congruence. }
    rewrite Hkeep. cbn [negb map find fst snd ModletWriter.value_elem ET.tag].
    now rewrite String.eqb_refl.
  - destruct (negb (ModletWriter.in_list k' ["Name"; "Website"])); [|exact IH].
    cbn [map find fst snd ModletWriter.value_elem ET.tag].
    destruct (String.eqb_spec k' k); [congruence|exact IH].
Qed.

(** X18: from a dictionary that has the key [Name], the combined descriptor
    gets the root [xml] with the children Name, DisplayName and Website
    followed by one child for each other key, in the order of the
    dictionary.  Name carries the name with every blank replaced by an
    underscore, DisplayName the name as given, Website the website or the
    empty text, and every key other than these three is found again with
    its value. *)
Theorem X18_combined_descriptor_fields
    (modlet_info : list (string * string)) (name : string)
    (Hname : XMLWriter.dict_get "Name" modlet_info = Some name) :
  exists root : ET.Element,
    ModletWriter.modinfo_root modlet_info = Some root
    /\ ET.tag root = "xml"
    /\ map ET.tag (ET.children root)
       = (["Name"; "DisplayName"; "Website"]
          ++ filter (fun k => negb (ModletWriter.in_list k ["Name"; "Website"]))
                    (map fst modlet_info))%list
    /\ attr_value root "Name" = Some (Py.replace name " " "_")
    /\ Py.contains " " (Py.replace name " " "_") = false
    /\ String.length (Py.replace name " " "_") = String.length name
    /\ attr_value root "DisplayName" = Some name
    /\ attr_value root "Website"
       = Some match XMLWriter.dict_get "Website" modlet_info with
              | Some website => website
              | None => ""
              end
    /\ (forall k, ~ In k ["Name"; "DisplayName"; "Website"] ->
          attr_value root k = XMLWriter.dict_get k modlet_info).
Proof.
  unfold ModletWriter.modinfo_root. rewrite Hname. eexists.
  split; [reflexivity|]. split; [reflexivity|].
  destruct (replace_blank_spec name) as [Hfree Hlen].
  split.
  { cbn [ET.children map app ModletWriter.value_elem ET.tag]. do 3 f_equal.
    clear. induction modlet_info as [|[k v] l IH]; [reflexivity|].
    cbn [filter map fst].
    destruct (negb (ModletWriter.in_list k ["Name"; "Website"]));
      cbn [map fst ModletWriter.value_elem ET.tag snd]; [f_equal|]; exact IH. }
  split; [reflexivity|]. split; [exact Hfree|]. split; [exact Hlen|].
  split; [reflexivity|]. split; [reflexivity|].
  intros k Hk. unfold attr_value, ET.find.
  cbn [ET.children app find ModletWriter.value_elem ET.tag].
  destruct (String.eqb_spec "Name" k) as [<-|_];
    [exfalso; apply Hk; now left|].
  destruct (String.eqb_spec "DisplayName" k) as [<-|_];
    [exfalso; apply Hk; right; now left|].
  destruct (String.eqb_spec "Website" k) as [<-|_];
    [exfalso; apply Hk; right; right; now left|].
  apply attr_value_other_keys; intros ->; apply Hk; cbn; auto.
Qed.

Lemma X18_combined_descriptor_witness :
  exists root : ET.Element,
    ModletWriter.modinfo_root
      [("Name", "Combined Modlet"); ("Author", "Modlet Combiner");
       ("Description", "A combined modlet"); ("Version", "1.0.0");
       ("Website", "")]
    = Some root
    /\ attr_value root "Name" = Some (Py.replace "Combined Modlet" " " "_")
    /\ attr_value root "DisplayName" = Some "Combined Modlet".
Proof.
  destruct (X18_combined_descriptor_fields
              [("Name", "Combined Modlet"); ("Author", "Modlet Combiner");
               ("Description", "A combined modlet"); ("Version", "1.0.0");
               ("Website", "")]
              "Combined Modlet" eq_refl)
    as [root [Hroot [_ [_ [Hn [_ [_ [Hd _]]]]]]]].
  exists root. split; [exact Hroot|]. split; [exact Hn|exact Hd].
Defined.

Example combined_descriptor_lower_case_keys :
  ModletWriter.modinfo_root
    [("name", "Combined Modlet"); ("author", ""); ("description", "");
     ("version", "1.0.0"); ("website", "")]
  = None.
Proof. reflexivity. Qed.

(** ** One file at a time (file_locator._process_xml_file) *)

Section Isolation.
Context `{Base64} `{ElementTreeLib}.


End Isolation.


(** ** The lines of a written text (xml_writer.pretty_print) *)

Lemma split_on_parts_free (c : ascii) (s : string) :
  Forall (fun part => Py.contains (String c "") part = false) (Py.split_on c s).
Proof.
  induction s as [|a r IH]; [repeat constructor|].
  cbn [Py.split_on]. destruct (Ascii.eqb a c) eqn:E.
  - constructor; [reflexivity|exact IH].
  - destruct (Py.split_on c r) as [|w ws]; [repeat constructor|].
    + rewrite contains_char_cons, Ascii.eqb_sym, E. reflexivity.
    + inversion IH as [|? ? Hw Hws]; subst. constructor; [|exact Hws].
      rewrite contains_char_cons, Ascii.eqb_sym, E. exact Hw.
Qed.

Lemma split_on_join (c : ascii) (parts : list string) :
  parts <> [] ->
  Forall (fun part => Py.contains (String c "") part = false) parts ->
  Py.split_on c (Py.join (String c "") parts) = parts.
Proof.
  induction parts as [|p parts IH]; [congruence|].
  intros _ Hfree. inversion Hfree as [|? ? Hp Hrest]; subst.
  destruct parts as [|q parts]; [now apply split_on_free|].
  change (Py.join (String c "") (p :: q :: parts))
    with (p ++ String c (Py.join (String c "") (q :: parts)))%string.
  rewrite split_on_app, (split_on_free c p Hp), IH by (assumption || discriminate).
  reflexivity.
Qed.

Section PrettyLines.
Context `{MiniDomLib}.

(** X20: when minidom answers, the lines of the text [pretty_print] returns
    are the lines of the answer, the declaration and the [root] wrapper
    taken out, that are not blank, in their order; the returned text is
    empty when there is no such line. *)
Theorem X20_pretty_text_has_no_blank_line (content pretty_xml : string)
    (Hdom : toprettyxml "  " (wrapped_document content) = Some pretty_xml) :
  let lines :=
    filter not_blank (Py.split_on (ascii_of_N 10) (unwrapped pretty_xml)) in
  Forall (fun line => Py.strip line <> "") lines
  /\ (lines = [] -> XMLWriter.pretty_print content = "")
  /\ (lines <> [] ->
      Py.split_on (ascii_of_N 10) (XMLWriter.pretty_print content) = lines).
Proof.
  intros lines.
  assert (Hout : XMLWriter.pretty_print content = Py.join (ET.chr 10) lines).
  { unfold XMLWriter.pretty_print. unfold wrapped_document in Hdom.
    cbv zeta in Hdom. rewrite Hdom. reflexivity. }
  split; [|split].
  - unfold lines. apply Forall_forall. intros line Hin.
    apply filter_In in Hin as [_ Hnb]. unfold not_blank in Hnb.
    intros Hblank. rewrite Hblank in Hnb. discriminate.
  - intros Hnil. now rewrite Hout, Hnil.
  - intros Hne. rewrite Hout. apply split_on_join; [exact Hne|].
    unfold lines. apply Forall_forall. intros line Hin.
    apply filter_In in Hin as [Hin _].
    pose proof (split_on_parts_free (ascii_of_N 10) (unwrapped pretty_xml)) as Hfree.
    rewrite Forall_forall in Hfree. now apply Hfree.
Qed.

End PrettyLines.

Lemma X20_pretty_text_witness :
  Py.split_on (ascii_of_N 10)
    (@XMLWriter.pretty_print Examples.minidom Examples.items_content)
  = ["  <config>"; "    <items>"; "      <ironSword/>"; "      <ironShield/>";
     "    </items>"; "  </config>"].
Proof.
  apply (@X20_pretty_text_has_no_blank_line Examples.minidom
           Examples.items_content Examples.items_pretty);
    [reflexivity|discriminate].
Defined.
